(** * Codex-: RSI, daily de-duplication and sinks

    A shallow embedding of [src/crypto_trending.py] and
    [src/blockasset_data.py], and the properties their specification
    states about them.

    Conventions of the embedding.
    - A Python [float] holding a price or an RSI is an exact rational
      ([Q]); equality of such values is [Qeq] ([==]).  Rounding error,
      infinities and NaN inputs are outside the model.  The one NaN the
      source creates itself (the placeholder of [analyze_coin]) is a
      constructor of [pyfloat].
    - A Python [int] is a [Z]; a [str] is a [string]; [None] in a field
      is [option]'s [None].
    - An exception is a value [Raise e] of the type [result]; Python's
      sequencing is the bind of that monad.
    - A [dict] with string keys is a [gmap string _].
    - The network is an oracle that answers each request; the file
      system and the databases are explicit stores. *)

From Stdlib Require Import QArith Qround Qabs Lqa Ascii String OrderedTypeEx.
From stdpp Require Import gmap strings list fin_maps sorting.

(** ** Exceptions *)

Inductive exn : Type :=
| ZeroDivisionError
| IndexError
| KeyError
| ValueError
| OSError
| OverflowError
| AttributeError
| RequestException.

Inductive result (A : Type) : Type :=
| Ok (a : A)
| Raise (e : exn).

Arguments Ok {A} a.
Arguments Raise {A} e.

#[global] Instance result_ret : MRet result := fun A a => Ok a.
#[global] Instance result_bind : MBind result := fun A B f m =>
  match m with
  | Ok a => f a
  | Raise e => Raise e
  end.
#[global] Instance result_fmap : FMap result := fun A B f m =>
  match m with
  | Ok a => Ok (f a)
  | Raise e => Raise e
  end.

(** ** Python primitives used by both tools *)

(** [l[i]] on a list: a negative index counts from the end, an index
    out of range raises [IndexError]. *)
Definition getitem {A : Type} (l : list A) (i : Z) : result A :=
  let n := Z.of_nat (length l) in
  let j := if (i <? 0)%Z then (i + n)%Z else i in
  if (j <? 0)%Z then Raise IndexError
  else match l !! Z.to_nat j with
       | Some x => Ok x
       | None => Raise IndexError
       end.

(** [a / b]: true division raises on a zero divisor. *)
Definition truediv (a b : Q) : result Q :=
  if Qeq_bool b 0 then Raise ZeroDivisionError else Ok (a / b)%Q.

(** [a > b] on numbers. *)
Definition Qgtb (a b : Q) : bool := negb (Qle_bool a b).

(** [a < b] on numbers. *)
Definition Qltb (a b : Q) : bool := negb (Qle_bool b a).

(** [sum(l)]: the items are added from the left, starting at [0]. *)
Definition sum (l : list Q) : Q := foldl Qplus 0%Q l.

(** [range(1, n + 1)]. *)
Definition range1 (n : Z) : list Z := seqZ 1 n.

(** [round(x, 2)]: the multiple of 1/100 nearest to [x], a tie going to
    the even one. *)
Definition round_half_even (x : Q) : Z :=
  let f := Qfloor x in
  match (x - inject_Z f ?= 1 # 2)%Q with
  | Lt => f
  | Gt => (f + 1)%Z
  | Eq => if Z.even f then f else (f + 1)%Z
  end.

Definition round2 (x : Q) : Q := (inject_Z (round_half_even (x * 100)) / 100)%Q.

(** A float as [analyze_coin] returns it: a number, or the NaN it puts
    in the place of [None]. *)
Inductive pyfloat : Type :=
| Fin (q : Q)
| NaN.

(** ** The world outside: HTTP, files, databases *)

(** What [requests.get] followed by [raise_for_status] and [json]
    gives: the decoded body, or a [RequestException].  The body is a
    JSON document of the shape the tools read; an answer that is not
    one is not part of the model. *)
Inductive response (A : Type) : Type :=
| Failed
| Body (a : A).

Arguments Failed {A}.
Arguments Body {A} a.

(** The body of a [market_chart] answer: the value under ["prices"],
    when the key is there, a list of [timestamp, price] pairs. *)
Abbreviation chart := (option (list (Z * Q))).

(** A value handed to the CSV writer or bound to an SQL parameter. *)
Inductive value : Type :=
| VNone
| VStr (s : string)
| VNum (q : Q).

(** A CSV file is the list of the records written to it; a database is
    its tables, a table the list of its rows in insertion order. *)
Abbreviation csv_files := (gmap string (list (list value))).
Abbreviation database := (gmap string (list (list value))).
Abbreviation databases := (gmap string (gmap string (list (list value)))).

(** [open(path, "w")]: the file is created or truncated. *)
Definition open_w (path : string) (fs : csv_files) : csv_files :=
  <[path := []]> fs.

(** [writer.writerow(r)] on the file opened at [path]. *)
Definition writerow (path : string) (r : list value) (fs : csv_files) : csv_files :=
  alter (fun rows => rows ++ [r]) path fs.

(** [sqlite3.connect(path)]: a file that is not there is an empty
    database. *)
Definition connect (path : string) (dbs : databases) : database :=
  default ∅ (dbs !! path).

(** [CREATE TABLE IF NOT EXISTS t]. *)
Definition create_table_if_not_exists (t : string) (db : database) : database :=
  match db !! t with
  | Some _ => db
  | None => <[t := []]> db
  end.

(** [DELETE FROM t]. *)
Definition delete_from (t : string) (db : database) : database :=
  alter (fun _ => []) t db.

(** [executemany("INSERT INTO t ...", rows)]. *)
Definition executemany_insert (t : string) (rows : list (list value)) (db : database)
  : database :=
  alter (fun old => old ++ rows) t db.

(** [conn.commit()] then [conn.close()]. *)
Definition commit (path : string) (db : database) (dbs : databases) : databases :=
  <[path := db]> dbs.

(** [if args.x:] on an optional path: [None] and the empty string are
    false. *)
Definition given (o : option string) : option string :=
  match o with
  | Some s => if String.eqb s "" then None else Some s
  | None => None
  end.

(** ** src/crypto_trending.py *)

Module CryptoTrending.

(** The loop of [compute_rsi] (lines 48-53), over the indices still to
    be visited, with the two buckets built so far. *)
Fixpoint rsi_loop (prices : list Q) (idx : list Z) (gains losses : list Q)
  : result (list Q * list Q) :=
  match idx with
  | [] => Ok (gains, losses)
  | i :: idx' =>
      p ← getitem prices i;
      p' ← getitem prices (i - 1);
      let delta := (p - p')%Q in
      if Qgtb delta 0
      then rsi_loop prices idx' (gains ++ [delta]) losses
      else rsi_loop prices idx' gains (losses ++ [(- delta)%Q])
  end.

(** [compute_rsi(prices, period)], lines 42-59. *)
Definition compute_rsi (prices : list Q) (period : Z) : result (option Q) :=
  if (Z.of_nat (length prices) <=? period)%Z then Ok None
  else
    '(gains, losses) ← rsi_loop prices (range1 period) [] [];
    avg_gain ← truediv (sum gains) (inject_Z period);
    avg_loss ← truediv (sum losses) (inject_Z period);
    if Qeq_bool avg_loss 0 then Ok (Some 100%Q)
    else
      rs ← truediv avg_gain avg_loss;
      d ← truediv 100 (1 + rs);
      Ok (Some (100 - d)%Q).


Inductive signal : Type := Buy | Sell | Neutral.

(** The classification of [analyze_coin], lines 66-73. *)
Definition signal_of (rsi : option Q) : signal :=
  match rsi with
  | None => Neutral
  | Some r =>
      if Qltb r 30 then Buy
      else if Qgtb r 70 then Sell
      else Neutral
  end.

(** An entry of [fetch_trending]'s result: the dict with the keys
    ["id"], ["name"] and ["symbol"], each [None] when the source left it
    out. *)
Record coin : Type := Coin {
  coin_id : option string;
  coin_name : option string;
  coin_symbol : option string
}.

(** The network as the trending tool sees it: the answer to the
    trending search (the value under ["coins"], each entry the value
    under its ["item"]), and the answer to the [k]-th [market_chart]
    request of the run, made for a coin id and a number of days. *)
Record network : Type := Network {
  trending_search : response (option (list (option coin)));
  market_chart : nat -> string -> Z -> response chart
}.

(** [fetch_trending()], lines 8-25. *)
Definition fetch_trending (net : network) : result (list coin) :=
  match trending_search net with
  | Failed => Raise RequestException
  | Body data =>
      let coins := default [] data in
      Ok ((fun c => default (Coin None None None) c) <$> coins)
  end.

(** What an f-string makes of a coin id. *)
Definition str (o : option string) : string := default "None" o.

(** [fetch_prices(coin_id, days)], lines 28-39, as the [k]-th chart
    request of the run. *)
Definition fetch_prices (net : network) (k : nat) (id : option string) (days : Z)
  : list Q :=
  match market_chart net k (str id) days with
  | Failed => []
  | Body data => snd <$> default [] data
  end.

(** [analyze_coin(coin)], lines 62-74. *)
Definition analyze_coin (net : network) (k : nat) (c : coin)
  : result (option string * pyfloat * signal) :=
  let prices := fetch_prices net k (coin_id c) 15 in
  rsi ← compute_rsi prices 14;
  let signal := signal_of rsi in
  Ok (coin_symbol c, match rsi with Some r => Fin r | None => NaN end, signal).

(** A result row of [main]: the dict with the keys ["name"],
    ["symbol"], ["rsi"] and ["signal"]. *)
Record row : Type := Row {
  row_name : option string;
  row_symbol : option string;
  row_rsi : option Q;
  row_signal : signal
}.

(** The loop of [main], lines 119-130; [k] chart requests were made
    before it.  [math.isnan(rsi)] holds of the [NaN] case alone. *)
Fixpoint main_loop (net : network) (k : nat) (coins : list coin) : result (list row) :=
  match coins with
  | [] => Ok []
  | c :: coins' =>
      '(symbol, rsi, signal) ← analyze_coin net k c;
      let r := Row (coin_name c) symbol
                   (match rsi with Fin q => Some (round2 q) | NaN => None end)
                   signal in
      results ← main_loop net (S k) coins';
      Ok (r :: results)
  end.

Definition opt_str (o : option string) : value :=
  match o with Some s => VStr s | None => VNone end.

Definition opt_num (o : option Q) : value :=
  match o with Some q => VNum q | None => VNone end.

Definition signal_str (s : signal) : string :=
  match s with Buy => "buy" | Sell => "sell" | Neutral => "neutral" end.

(** The cells of a row in the order of the field names. *)
Definition cells (r : row) : list value :=
  [opt_str (row_name r); opt_str (row_symbol r); opt_num (row_rsi r);
   VStr (signal_str (row_signal r))].

Definition header : list value := [VStr "name"; VStr "symbol"; VStr "rsi"; VStr "signal"].

(** [save_csv(rows, path)], lines 76-83. *)
Definition save_csv (rows : list row) (path : string) (fs : csv_files) : csv_files :=
  let fs := open_w path fs in
  let fs := writerow path header fs in
  foldl (fun fs r => writerow path (cells r) fs) fs rows.

(** [save_db(rows, path)], lines 86-102. *)
Definition save_db (rows : list row) (path : string) (dbs : databases) : databases :=
  let db := connect path dbs in
  let db := create_table_if_not_exists "trending" db in
  let db := delete_from "trending" db in
  let db := executemany_insert "trending" (cells <$> rows) db in
  commit path db dbs.

Record args : Type := Args { arg_csv : option string; arg_db : option string }.

(** [main()], lines 105-138, without its printing. *)
Definition main (a : args) (net : network) (fs : csv_files) (dbs : databases)
  : result (list row * csv_files * databases) :=
  coins ← fetch_trending net;
  let coins := take 7 coins in
  results ← main_loop net 0 coins;
  let fs := match given (arg_csv a) with Some p => save_csv results p fs | None => fs end in
  let dbs := match given (arg_db a) with Some p => save_db results p dbs | None => dbs end in
  Ok (results, fs, dbs).

End CryptoTrending.

(** ** src/blockasset_data.py *)

Module BlockassetData.

(** *** [datetime.utcfromtimestamp(ts / 1000).strftime("%Y-%m-%d")] *)

(** The day of a millisecond timestamp, counted from 1970-01-01. *)
Definition day_number (ts : Z) : Z := (ts `div` 86400000)%Z.

(** Year, month and day of a day number in the proleptic Gregorian
    calendar. *)
Definition civil (day : Z) : Z * Z * Z :=
  let z := (day + 719468)%Z in
  let era := (z `div` 146097)%Z in
  let doe := (z - era * 146097)%Z in
  let yoe := ((doe - doe `div` 1460 + doe `div` 36524 - doe `div` 146096) `div` 365)%Z in
  let doy := (doe - (365 * yoe + yoe `div` 4 - yoe `div` 100))%Z in
  let mp := ((5 * doy + 2) `div` 153)%Z in
  let d := (doy - (153 * mp + 2) `div` 5 + 1)%Z in
  let m := if (mp <? 10)%Z then (mp + 3)%Z else (mp - 9)%Z in
  let y := (yoe + era * 400 + (if (m <=? 2)%Z then 1 else 0))%Z in
  (y, m, d).

Definition digit (n : Z) : ascii := ascii_of_nat (48 + Z.to_nat (n `mod` 10)).

Definition fmt2 (n : Z) : string :=
  String (digit (n `div` 10)) (String (digit n) EmptyString).

Definition fmt4 (n : Z) : string :=
  String (digit (n `div` 1000)) (String (digit (n `div` 100)) (fmt2 n)).

(** The text ["%Y-%m-%d"] gives for the day of [ts], the year with four
    digits as Python documents it (below the year 1000 some C libraries
    leave the leading zeros out). *)
Definition date_str (ts : Z) : string :=
  let '(y, m, d) := civil (day_number ts) in
  String.append (fmt4 y)
    (String.append "-" (String.append (fmt2 m) (String.append "-" (fmt2 d)))).

(** A [datetime] has a year from 1 to 9999. *)
Definition in_range (ts : Z) : bool :=
  let '(y, _, _) := civil (day_number ts) in
  ((1 <=? y) && (y <=? 9999))%Z.

(** The exception of a timestamp [datetime] cannot hold, as CPython
    raises it where [time_t] has 64 bits: [OverflowError] when the
    seconds do not fit [time_t], [OSError] when [gmtime] cannot hold the
    year in a C [int], and [ValueError] when the year is only outside
    1..9999. *)
Definition date_error (ts : Z) : exn :=
  if ((ts <? - (2 ^ 63 * 1000)) || (2 ^ 63 * 1000 <=? ts))%Z then OverflowError
  else
    let '(y, _, _) := civil (day_number ts) in
    if ((y - 1900 <? - (2 ^ 31)) || (2 ^ 31 <=? y - 1900))%Z then OSError
    else ValueError.

(** The whole expression: outside the years of [datetime] it raises. *)
Definition utc_date (ts : Z) : result string :=
  if in_range ts then Ok (date_str ts) else Raise (date_error ts).

(** *** [sorted] on strings *)

(** [s1 <= s2] on [str]: the order of the code points. *)
Definition str_le (s1 s2 : string) : Prop := String.leb s1 s2 = true.

(** [s1 < s2] on [str]. *)
Definition str_lt (s1 s2 : string) : Prop := String.ltb s1 s2 = true.

#[global] Instance str_le_dec (s1 s2 : string) : Decision (str_le s1 s2).
Proof. unfold str_le. apply _. Defined.

#[global] Instance str_lt_dec (s1 s2 : string) : Decision (str_lt s1 s2).
Proof. unfold str_lt. apply _. Defined.

(** [sorted(keys)]: a stable merge sort. *)
Definition sorted (keys : list string) : list string := merge_sort str_le keys.

(** *** The tool *)

(** The value under a key of a JSON object, as far as a [.get] and a
    further [.get] on its result care: the key is missing, the value is
    no object (null, a number, a list), or it is an object. *)
Inductive field (A : Type) : Type :=
| Missing
| NotObject
| Object (a : A).

Arguments Missing {A}.
Arguments NotObject {A}.
Arguments Object {A} a.

(** The body of the detail answer, a JSON object, as far as [main]
    reads it: what is under ["market_data"] and, in it, under
    ["current_price"]. *)
Record details : Type := Details {
  market_data : field (field unit)
}.

(** The network as this tool sees it: the coin's detail page and its
    market chart. *)
Record network : Type := Network {
  coin_details : response details;
  market_chart : Z -> response chart
}.

(** [fetch_coin_details()], lines 11-24. *)
Definition fetch_coin_details (net : network) : result details :=
  match coin_details net with
  | Failed => Raise RequestException
  | Body info => Ok info
  end.

(** [info.get("market_data", {}).get("current_price", {}).get("usd")],
    line 89: a default [{}] stands in for a missing key, and a value
    that is no object has no [get].  The price itself is only
    printed. *)
Definition current_price (info : details) : result unit :=
  match market_data info with
  | Missing => Ok tt
  | NotObject => Raise AttributeError
  | Object Missing => Ok tt
  | Object NotObject => Raise AttributeError
  | Object (Object usd) => Ok usd
  end.

(** The loop of [fetch_price_history], lines 40-42; [int(ts)] and
    [float(price)] leave an integer and a number as they are. *)
Fixpoint per_date_loop (samples : list (Z * Q)) (per_date : gmap string (Z * Q))
  : result (gmap string (Z * Q)) :=
  match samples with
  | [] => Ok per_date
  | (ts, price) :: samples' =>
      date ← utc_date ts;
      per_date_loop samples' (<[date := (ts, price)]> per_date)
  end.

(** [d[k]] on a dict. *)
Definition dict_getitem {A : Type} (d : gmap string A) (k : string) : result A :=
  match d !! k with
  | Some v => Ok v
  | None => Raise KeyError
  end.

(** The keys of a dict.  Python lists them in insertion order; the
    order does not survive [sorted], so the map's own is taken. *)
Definition keys {A : Type} (d : gmap string A) : list string := (map_to_list d).*1.

(** [fetch_price_history(days)], lines 27-45. *)
Definition fetch_price_history (net : network) (days : Z) : result (list (Z * Q)) :=
  match market_chart net days with
  | Failed => Raise RequestException
  | Body data =>
      per_date ← per_date_loop (default [] data) ∅;
      mapM (dict_getitem per_date) (sorted (keys per_date))
  end.

Definition header : list value := [VStr "date"; VStr "price_usd"].

(** The loop of [save_csv], lines 52-54. *)
Fixpoint save_csv_loop (rows : list (Z * Q)) (path : string) (fs : csv_files)
  : result csv_files :=
  match rows with
  | [] => Ok fs
  | (ts, price) :: rows' =>
      date ← utc_date ts;
      save_csv_loop rows' path (writerow path [VStr date; VNum price] fs)
  end.

(** [save_csv(rows, path)], lines 48-54.  What is left of the file when
    a row raises is not part of the model. *)
Definition save_csv (rows : list (Z * Q)) (path : string) (fs : csv_files)
  : result csv_files :=
  let fs := open_w path fs in
  let fs := writerow path header fs in
  save_csv_loop rows path fs.

(** The parameters of [save_db]'s insert, lines 64-67. *)
Definition db_row (r : Z * Q) : result (list value) :=
  date ← utc_date r.1;
  Ok [VStr date; VNum r.2].

(** [save_db(rows, path)], lines 57-70.  What is left of the database
    when a row raises is not part of the model. *)
Definition save_db (rows : list (Z * Q)) (path : string) (dbs : databases)
  : result databases :=
  let db := connect path dbs in
  let db := create_table_if_not_exists "prices" db in
  let db := delete_from "prices" db in
  params ← mapM db_row rows;
  let db := executemany_insert "prices" params db in
  Ok (commit path db dbs).

Record args : Type := Args {
  arg_csv : option string;
  arg_db : option string;
  arg_days : Z
}.

(** The dates of the first and of the last row, lines 95-98. *)
Definition date_range (prices : list (Z * Q)) : result unit :=
  match head prices, last prices with
  | Some first, Some final =>
      _ ← utc_date first.1;
      _ ← utc_date final.1;
      Ok tt
  | _, _ => Ok tt
  end.

(** [main()], lines 73-106; of its printing, what can raise is kept. *)
Definition main (a : args) (net : network) (fs : csv_files) (dbs : databases)
  : result (list (Z * Q) * csv_files * databases) :=
  info ← fetch_coin_details net;
  _ ← current_price info;
  prices ← fetch_price_history net (arg_days a);
  _ ← date_range prices;
  fs ← match given (arg_csv a) with Some p => save_csv prices p fs | None => Ok fs end;
  dbs ← match given (arg_db a) with Some p => save_db prices p dbs | None => Ok dbs end;
  Ok (prices, fs, dbs).

End BlockassetData.

Import CryptoTrending.

(** ** The words of the specification *)

(** The price of day [i] of a series. *)
Definition price_at (prices : list Q) (i : Z) : Q :=
  default 0%Q (prices !! Z.to_nat i).

(** The day-over-day delta of day [i]. *)
Definition delta_at (prices : list Q) (i : Z) : Q :=
  (price_at prices i - price_at prices (i - 1))%Q.

(** The deltas of the days 1 to [P]. *)
Definition window_deltas (prices : list Q) (P : Z) : list Q :=
  delta_at prices <$> seqZ 1 P.

(** The positive deltas. *)
Definition gain_bucket (prices : list Q) (P : Z) : list Q :=
  List.filter (fun d => Qgtb d 0) (window_deltas prices P).

(** The absolute values of the deltas that are not positive. *)
Definition loss_bucket (prices : list Q) (P : Z) : list Q :=
  Qabs <$> List.filter (fun d => Qle_bool d 0) (window_deltas prices P).

Definition average_gain (prices : list Q) (P : Z) : Q :=
  (sum (gain_bucket prices P) / inject_Z P)%Q.

Definition average_loss (prices : list Q) (P : Z) : Q :=
  (sum (loss_bucket prices P) / inject_Z P)%Q.

Definition rsi_formula (prices : list Q) (P : Z) : Q :=
  (100 - 100 / (1 + average_gain prices P / average_loss prices P))%Q.

(** The calendar date of a sample or of a row. *)
Definition date_of (s : Z * Q) : string := BlockassetData.date_str s.1.

Definition dates (samples : list (Z * Q)) : list string := date_of <$> samples.

(** The samples of one calendar date, in the order of the input. *)
Definition samples_of (d : string) (samples : list (Z * Q)) : list (Z * Q) :=
  filter (fun s => date_of s = d) samples.

(** The sample that came last for a date. *)
Definition last_seen (d : string) (samples : list (Z * Q)) : option (Z * Q) :=
  last (samples_of d samples).

(** Every timestamp falls in a year [datetime] has. *)
Definition datable (samples : list (Z * Q)) : Prop :=
  Forall (fun s => BlockassetData.in_range s.1 = true) samples.

(** The exceptions the conversion of a timestamp has. *)
Definition date_exn (e : exn) : Prop :=
  e = ValueError \/ e = OSError \/ e = OverflowError.

(** The dict of [fetch_price_history] after its loop, when no timestamp
    raises. *)
Definition bucketed (samples : list (Z * Q)) (per_date : gmap string (Z * Q))
  : gmap string (Z * Q) :=
  foldl (fun m s => <[date_of s := s]> m) per_date samples.

(** The record both sinks of the price tool write for a row. *)
Definition record (r : Z * Q) : list value := [VStr (date_of r); VNum r.2].

(** The RSI of the trending tool: period 14, undefined up to 14
    prices. *)
Definition rsi14 (prices : list Q) : option Q :=
  if (Z.of_nat (length prices) <=? 14)%Z then None
  else Some (if Qeq_bool (average_loss prices 14) 0 then 100%Q
             else rsi_formula prices 14).

(** The row of the coin analysed with the [k]-th chart request: the
    RSI is stored rounded, the signal is that of the RSI as computed. *)
Definition expected_row (net : network) (k : nat) (c : coin) : row :=
  let rsi := rsi14 (fetch_prices net k (coin_id c) 15) in
  Row (coin_name c) (coin_symbol c) (round2 <$> rsi) (signal_of rsi).

Fixpoint expected_rows (net : network) (k : nat) (coins : list coin) : list row :=
  match coins with
  | [] => []
  | c :: coins' => expected_row net k c :: expected_rows net (S k) coins'
  end.

(** The table [t] of the database at [path]. *)
Definition table (path t : string) (dbs : databases) : option (list (list value)) :=
  db ← dbs !! path; db !! t.

(** Two outcomes of [compute_rsi] that a caller cannot tell apart: the
    same exception, the same undefined marker, or equal numbers. *)
Definition same_rsi (r1 r2 : result (option Q)) : Prop :=
  match r1, r2 with
  | Ok (Some v1), Ok (Some v2) => (v1 == v2)%Q
  | Ok None, Ok None => True
  | Raise e1, Raise e2 => e1 = e2
  | _, _ => False
  end.

(** The sums of the two buckets. *)
Definition total_gain (prices : list Q) (P : Z) : Q := sum (gain_bucket prices P).

Definition total_loss (prices : list Q) (P : Z) : Q := sum (loss_bucket prices P).

(** A stored RSI [q] agrees with the signal beside it. *)
Definition agrees (q : Q) (s : signal) : Prop :=
  match s with
  | Buy => (q <= 30)%Q
  | Sell => (70 <= q)%Q
  | Neutral => (30 <= q <= 70)%Q
  end.

(** A row whose stored RSI is missing and neutral, or lies in [0, 100]
    and agrees with the signal. *)
Definition consistent (r : row) : Prop :=
  match row_rsi r with
  | None => row_signal r = Neutral
  | Some q => (0 <= q <= 100)%Q /\ agrees q (row_signal r)
  end.

(** The number of price points a chart request delivers: none when it
    fails or when its body has no ["prices"]. *)
Definition chart_size (r : response chart) : nat :=
  match r with
  | Failed => 0%nat
  | Body data => length (default [] data)
  end.

(** The stages of [civil]: the year of the era and the day of that
    year (both counted from the first of March) of a day of the era,
    and the month (from March) and the day of the month of a day of
    the year. *)
Definition yoe_of (doe : Z) : Z :=
  ((doe - doe `div` 1460 + doe `div` 36524 - doe `div` 146096) `div` 365)%Z.

Definition doy_of (doe : Z) : Z :=
  (doe - (365 * yoe_of doe + yoe_of doe `div` 4 - yoe_of doe `div` 100))%Z.

Definition mp_of (doy : Z) : Z := ((5 * doy + 2) `div` 153)%Z.

Definition dom_of (doy : Z) : Z := (doy - (153 * mp_of doy + 2) `div` 5 + 1)%Z.

(** A calendar date before another. *)
Definition date_lt (a b : Z * Z * Z) : Prop :=
  let '(y1, m1, d1) := a in
  let '(y2, m2, d2) := b in
  (y1 < y2 \/ (y1 = y2 /\ (m1 < m2 \/ (m1 = m2 /\ d1 < d2))))%Z.

(** ** Sample data *)

(** The fifteen prices of the specification's example. *)
Definition wilder : list Q :=
  [44; 44.25; 44.5; 43.75; 44.5; 44.75; 45; 45.5; 46; 46.25; 47; 47.5;
   47.25; 47.5; 48.5]%Q.

(** Fifteen prices whose RSI is 29.999. *)
Definition near_thirty : list Q :=
  ([100000; 129999] ++ replicate 13 59998)%Q.

(** Sixteen prices that never fall. *)
Definition rising : list Q := ([1; 2; 3; 3; 4; 5; 6; 7; 8; 8; 9; 10; 11; 12; 13; 14])%Q.

(** A row of the trending tool. *)
Definition sample_row : row := Row (Some "A") (Some "a") (Some 50%Q) Neutral.

Definition sample_details : BlockassetData.details :=
  BlockassetData.Details (BlockassetData.Object (BlockassetData.Object tt)).

(** Four samples out of order: one of 2023-11-16, then three of
    2023-11-14 with the prices 9, 5 and 7. *)
Definition sample_chart : list (Z * Q) :=
  [(1700100000000%Z, 3%Q); (1700000000000%Z, 9%Q); (1700000001000%Z, 5%Q);
   (1700000002000%Z, 7%Q)].

Definition sample_price_net : BlockassetData.network :=
  BlockassetData.Network (Body sample_details) (fun _ => Body (Some sample_chart)).

(** Nine trending entries, the third without an item. *)
Definition sample_entries : list (option coin) :=
  [Some (Coin (Some "a") (Some "A") (Some "a"));
   Some (Coin (Some "b") (Some "B") (Some "b"));
   None;
   Some (Coin (Some "d") (Some "D") (Some "d"));
   Some (Coin (Some "e") (Some "E") (Some "e"));
   Some (Coin (Some "f") (Some "F") (Some "f"));
   Some (Coin (Some "g") (Some "G") (Some "g"));
   Some (Coin (Some "h") (Some "H") (Some "h"));
   Some (Coin (Some "i") (Some "I") (Some "i"))].

(** A network on which every chart is that of [wilder], one timestamp a
    day, and the same network with its second chart request failing. *)
Definition sample_net : network :=
  Network (Body (Some sample_entries))
          (fun _ _ _ => Body (Some (zip (seqZ 0 15) wilder))).

Definition sample_net_failing : network :=
  Network (trending_search sample_net)
          (fun k id days =>
             if Nat.eqb k 1 then Failed else market_chart sample_net k id days).

Definition sample_args : args := Args (Some "out.csv") (Some "out.db").

(** The daily series of [sample_chart], and a network that serves it. *)
Definition sample_rows : list (Z * Q) :=
  [(1700000002000%Z, 7%Q); (1700100000000%Z, 3%Q)].

Definition sample_series_net : BlockassetData.network :=
  BlockassetData.Network (Body sample_details) (fun _ => Body (Some sample_rows)).

(** [sample_chart] without its second sample, which the fourth
    overwrites, and with its second and first samples swapped. *)
Definition sample_chart_dropped : list (Z * Q) :=
  [(1700100000000%Z, 3%Q); (1700000001000%Z, 5%Q); (1700000002000%Z, 7%Q)].

Definition sample_chart_swapped : list (Z * Q) :=
  [(1700000000000%Z, 9%Q); (1700100000000%Z, 3%Q); (1700000001000%Z, 5%Q);
   (1700000002000%Z, 7%Q)].

(** A chart with a timestamp far beyond the year 9999. *)
Definition undatable_chart : list (Z * Q) :=
  [(1700000000000%Z, 9%Q); (1000000000000000000%Z, 5%Q)].

Definition chart_net (l : list (Z * Q)) : BlockassetData.network :=
  BlockassetData.Network (Body sample_details) (fun _ => Body (Some l)).

Definition sample_price_args : BlockassetData.args :=
  BlockassetData.Args (Some "p.csv") (Some "p.db") 365.

(** [sample_net] with every chart request after the seventh failing. *)
Definition sample_net_late : network :=
  Network (trending_search sample_net)
          (fun k id days =>
             if (k <? 7)%nat then market_chart sample_net k id days else Failed).

(** * Properties *)

(** ** Arithmetic on [Q] *)

Lemma Qgtb_lt (a b : Q) : Qgtb a b = true <-> (b < a)%Q.
Proof.
  unfold Qgtb. rewrite negb_true_iff, <- not_true_iff_false, Qle_bool_iff.
  split; [apply Qnot_le_lt | apply Qlt_not_le].
Qed.

Lemma Qltb_lt (a b : Q) : Qltb a b = true <-> (a < b)%Q.
Proof. apply Qgtb_lt. Qed.

Lemma Qgtb_le (a b : Q) : Qgtb a b = false <-> (a <= b)%Q.
Proof. unfold Qgtb. rewrite negb_false_iff. apply Qle_bool_iff. Qed.

Lemma Qltb_le (a b : Q) : Qltb a b = false <-> (b <= a)%Q.
Proof. apply Qgtb_le. Qed.

Lemma Qabs_of_nonpos (d : Q) : Qle_bool d 0 = true -> Qabs d = (- d)%Q.
Proof.
  destruct d as [n m]. unfold Qle_bool, Qabs, Qopp. simpl. intros H.
  apply Z.leb_le in H. f_equal. lia.
Qed.

Lemma inject_Z_nonzero (z : Z) : z <> 0%Z -> ~ (inject_Z z == 0)%Q.
Proof. intros Hz. unfold Qeq. simpl. lia. Qed.

Lemma truediv_nonzero (a b : Q) : ~ (b == 0)%Q -> truediv a b = Ok (a / b)%Q.
Proof.
  intros Hb. unfold truediv.
  destruct (Qeq_bool b 0) eqn:E; [|done].
  apply Qeq_bool_iff in E. contradiction.
Qed.

(** The sum with an accumulator, as the fold sees it. *)
Lemma foldl_Qplus_acc (l : list Q) (a : Q) :
  (foldl Qplus a l == a + sum l)%Q.
Proof.
  unfold sum. revert a. induction l as [|x l IH]; intros a; simpl.
  - ring.
  - rewrite (IH (a + x)%Q), (IH (0 + x)%Q). ring.
Qed.

Lemma sum_cons (x : Q) (l : list Q) : (sum (x :: l) == x + sum l)%Q.
Proof. unfold sum at 1. simpl. rewrite foldl_Qplus_acc. ring. Qed.

Lemma sum_nonneg (l : list Q) : Forall (fun x => 0 <= x)%Q l -> (0 <= sum l)%Q.
Proof.
  induction 1 as [|x l Hx _ IH].
  - unfold sum. simpl. apply Qle_refl.
  - rewrite sum_cons. lra.
Qed.

Lemma sum_zero (l : list Q) : Forall (fun x => x == 0)%Q l -> (sum l == 0)%Q.
Proof.
  induction 1 as [|x l Hx _ IH].
  - reflexivity.
  - rewrite sum_cons, Hx, IH. ring.
Qed.

Lemma Qdiv_nonneg (a b : Q) : (0 <= a)%Q -> (0 < b)%Q -> (0 <= a / b)%Q.
Proof. intros Ha Hb. apply Qle_shift_div_l; [done|]. lra. Qed.

(** The value of the closing formula lies between 0 and 100. *)
Lemma rsi_value_bounds (rs : Q) :
  (0 <= rs)%Q -> (0 <= 100 - 100 / (1 + rs) <= 100)%Q.
Proof.
  intros Hrs.
  assert (0 < 1 + rs)%Q as Hpos by lra.
  assert (0 <= 100 / (1 + rs))%Q as H0 by (apply Qdiv_nonneg; lra).
  assert (100 / (1 + rs) <= 100)%Q as H1
    by (apply Qle_shift_div_r; [done|]; lra).
  lra.
Qed.

(** ** [compute_rsi]: the loop and the averages *)

Section rsi.
Variable prices : list Q.

Lemma getitem_in_range (i : Z) :
  (0 <= i < Z.of_nat (length prices))%Z ->
  getitem prices i = Ok (price_at prices i).
Proof.
  intros Hi. unfold getitem, price_at. cbv zeta.
  assert ((i <? 0)%Z = false) as E by (apply Z.ltb_ge; lia).
  rewrite E. cbv iota. rewrite E.
  destruct (lookup_lt_is_Some_2 prices (Z.to_nat i)) as [x Hx]; [lia|].
  by rewrite Hx.
Qed.

(** The loop never leaves the list, and sorts each delta into its
    bucket. *)
Lemma rsi_loop_buckets (idx : list Z) (gains losses : list Q) :
  Forall (fun i => 1 <= i < Z.of_nat (length prices))%Z idx ->
  rsi_loop prices idx gains losses =
  Ok (gains ++ List.filter (fun d => Qgtb d 0) (delta_at prices <$> idx),
      losses ++ (Qabs <$> List.filter (fun d => Qle_bool d 0) (delta_at prices <$> idx))).
Proof.
  intros Hidx. revert gains losses.
  induction Hidx as [|i idx Hi _ IH]; intros gains losses.
  - simpl. by rewrite !app_nil_r.
  - cbn [rsi_loop]. rewrite !getitem_in_range by lia. cbn [mbind result_bind].
    change (price_at prices i - price_at prices (i - 1))%Q with (delta_at prices i).
    rewrite fmap_cons. cbn [List.filter].
    assert (Qle_bool (delta_at prices i) 0 = negb (Qgtb (delta_at prices i) 0)) as Hle
      by (unfold Qgtb; by rewrite negb_involutive).
    rewrite Hle.
    destruct (Qgtb (delta_at prices i) 0) eqn:E; cbn [negb] in *.
    + rewrite IH. by rewrite <- app_assoc.
    + rewrite IH, fmap_cons, (Qabs_of_nonpos _ Hle). by rewrite <- app_assoc.
Qed.

Lemma rsi_loop_window (P : Z) :
  (P < Z.of_nat (length prices))%Z ->
  rsi_loop prices (range1 P) [] [] = Ok (gain_bucket prices P, loss_bucket prices P).
Proof.
  intros HP. unfold range1. rewrite rsi_loop_buckets; [done|].
  apply Forall_seqZ. lia.
Qed.

Lemma gain_bucket_pos (P : Z) : Forall (fun x => 0 < x)%Q (gain_bucket prices P).
Proof.
  unfold gain_bucket. apply List.Forall_forall. intros x Hx.
  apply List.filter_In in Hx as [_ Hx]. by apply Qgtb_lt.
Qed.

Lemma loss_bucket_nonneg (P : Z) : Forall (fun x => 0 <= x)%Q (loss_bucket prices P).
Proof.
  unfold loss_bucket. apply Forall_fmap, List.Forall_forall. intros x _.
  apply Qabs_nonneg.
Qed.

Lemma window_deltas_nil (P : Z) : (P <= 0)%Z -> window_deltas prices P = [].
Proof. intros HP. unfold window_deltas. by rewrite seqZ_nil. Qed.

Lemma average_gain_nonneg (P : Z) : (0 <= average_gain prices P)%Q.
Proof.
  unfold average_gain.
  destruct (Z_lt_le_dec 0 P) as [HP|HP].
  - apply Qdiv_nonneg.
    + apply sum_nonneg. eapply Forall_impl; [apply gain_bucket_pos|].
      intros x Hx. simpl in Hx. lra.
    + replace 0%Q with (inject_Z 0) by done. by rewrite <- Zlt_Qlt.
  - unfold gain_bucket. rewrite window_deltas_nil by done. simpl.
    unfold sum. simpl. unfold Qdiv. rewrite Qmult_0_l. apply Qle_refl.
Qed.

Lemma average_loss_nonneg (P : Z) : (0 <= average_loss prices P)%Q.
Proof.
  unfold average_loss.
  destruct (Z_lt_le_dec 0 P) as [HP|HP].
  - apply Qdiv_nonneg.
    + apply sum_nonneg, loss_bucket_nonneg.
    + replace 0%Q with (inject_Z 0) by done. by rewrite <- Zlt_Qlt.
  - unfold loss_bucket. rewrite window_deltas_nil by done. simpl.
    unfold sum. simpl. unfold Qdiv. rewrite Qmult_0_l. apply Qle_refl.
Qed.

(** What [compute_rsi] returns on a list longer than a period that is
    not zero. *)
Lemma compute_rsi_value (P : Z) :
  (P < Z.of_nat (length prices))%Z -> P <> 0%Z ->
  compute_rsi prices P =
  Ok (Some (if Qeq_bool (average_loss prices P) 0 then 100%Q
            else rsi_formula prices P)).
Proof.
  intros Hlen HP. unfold compute_rsi.
  destruct (Z.leb_spec (Z.of_nat (length prices)) P) as [?|_]; [lia|].
  rewrite rsi_loop_window by done. cbn [mbind result_bind].
  pose proof (inject_Z_nonzero P HP) as HP'.
  rewrite (truediv_nonzero _ _ HP'). cbn [mbind result_bind].
  rewrite (truediv_nonzero _ _ HP'). cbn [mbind result_bind].
  fold (average_gain prices P). fold (average_loss prices P).
  destruct (Qeq_bool (average_loss prices P) 0) eqn:E; [done|].
  apply Qeq_bool_neq in E.
  pose proof (average_loss_nonneg P) as Hl.
  pose proof (average_gain_nonneg P) as Hg.
  assert (0 < average_loss prices P)%Q as Hpos.
  { apply Qle_lteq in Hl as [Hl|Hl]; [done|]. by symmetry in Hl. }
  rewrite truediv_nonzero by done. cbn [mbind result_bind].
  pose proof (Qdiv_nonneg _ _ Hg Hpos) as Hrs.
  rewrite truediv_nonzero by lra. done.
Qed.

(** A zero period makes the first average raise. *)
Lemma compute_rsi_zero_period :
  (0 < length prices)%nat -> compute_rsi prices 0 = Raise ZeroDivisionError.
Proof.
  intros Hlen. unfold compute_rsi.
  destruct (Z.leb_spec (Z.of_nat (length prices)) 0) as [?|_]; [lia|].
  rewrite rsi_loop_window by lia. done.
Qed.
End rsi.


Lemma average_loss_zero_period (prices : list Q) : (average_loss prices 0 == 0)%Q.
Proof. unfold average_loss, Qdiv. change (/ inject_Z 0)%Q with 0%Q. ring. Qed.

Lemma compute_rsi_short (prices : list Q) (P : Z) :
  (Z.of_nat (length prices) <= P)%Z -> compute_rsi prices P = Ok None.
Proof.
  intros Hlen. unfold compute_rsi.
  by destruct (Z.leb_spec (Z.of_nat (length prices)) P) as [_|?]; [|lia].
Qed.

Lemma compute_rsi_total (prices : list Q) (P : Z) :
  P <> 0%Z -> exists r, compute_rsi prices P = Ok r.
Proof.
  intros HP. destruct (Z_lt_le_dec P (Z.of_nat (length prices))) as [Hlen|Hlen].
  - rewrite compute_rsi_value by done. eauto.
  - exists None. by apply compute_rsi_short.
Qed.

(** Two lists with the same first [P + 1] prices have the same window. *)
Lemma window_deltas_take (prices prices' : list Q) (P : Z) :
  take (Z.to_nat (P + 1)) prices' = take (Z.to_nat (P + 1)) prices ->
  window_deltas prices' P = window_deltas prices P.
Proof.
  intros Htake. unfold window_deltas. apply Forall_fmap_ext, Forall_seqZ.
  intros i Hi.
  assert (forall j, (0 <= j <= P)%Z -> price_at prices' j = price_at prices j) as Hat.
  { intros j Hj. unfold price_at.
    rewrite <- (lookup_take_lt prices' (Z.to_nat (P + 1))) by lia.
    rewrite <- (lookup_take_lt prices (Z.to_nat (P + 1))) by lia.
    by rewrite Htake. }
  unfold delta_at. rewrite !Hat by lia. done.
Qed.

(** ** The claims on [compute_rsi] and the classification *)

(** C2: on a list longer than the period [P], the loop of [compute_rsi]
    fills the gain bucket with the positive deltas of the days 1 to [P]
    and the loss bucket with the absolute values of the others; when the
    average loss [sum(losses)/P] is not zero the result is
    [100 - 100 / (1 + average gain / average loss)]; and the result
    depends on the first [P + 1] prices alone: it is the result on that
    prefix, and two lists longer than [P] with the same first [P + 1]
    prices have the same result. *)
Theorem compute_rsi_leading_window (prices : list Q) (P : Z) :
  (P < Z.of_nat (length prices))%Z ->
  rsi_loop prices (range1 P) [] [] = Ok (gain_bucket prices P, loss_bucket prices P) /\
  (~ (average_loss prices P == 0)%Q ->
   compute_rsi prices P = Ok (Some (rsi_formula prices P))) /\
  compute_rsi (take (Z.to_nat (P + 1)) prices) P = compute_rsi prices P /\
  (forall prices' : list Q,
     (P < Z.of_nat (length prices'))%Z ->
     take (Z.to_nat (P + 1)) prices' = take (Z.to_nat (P + 1)) prices ->
     compute_rsi prices' P = compute_rsi prices P).
Proof.
  intros Hlen.
  assert (forall prices' : list Q,
     (P < Z.of_nat (length prices'))%Z ->
     take (Z.to_nat (P + 1)) prices' = take (Z.to_nat (P + 1)) prices ->
     compute_rsi prices' P = compute_rsi prices P) as Hsame.
  { intros prices' Hlen' Htake.
    destruct (decide (P = 0%Z)) as [->|HP].
    - rewrite !compute_rsi_zero_period by lia. done.
    - rewrite !compute_rsi_value by done.
      unfold rsi_formula, average_gain, average_loss, gain_bucket, loss_bucket.
      by rewrite (window_deltas_take _ _ _ Htake). }
  split; [by apply rsi_loop_window|]. split; [|split; [|done]].
  - intros Hloss.
    assert (P <> 0%Z) as HP.
    { intros ->. apply Hloss, average_loss_zero_period. }
    rewrite compute_rsi_value by done.
    destruct (Qeq_bool (average_loss prices P) 0) eqn:E; [|done].
    apply Qeq_bool_iff in E. contradiction.
  - apply Hsame.
    + rewrite length_take. lia.
    + rewrite take_take. f_equal. lia.
Qed.

(** C3: [compute_rsi] returns the undefined marker [None] exactly when
    the number of prices is at most the period; the marker is not a
    number (so neither 0 nor 100) and not an exception. *)
Theorem compute_rsi_undefined_iff (prices : list Q) (P : Z) :
  (compute_rsi prices P = Ok None <-> (Z.of_nat (length prices) <= P)%Z) /\
  (forall v : Q, @Ok (option Q) None <> Ok (Some v)) /\
  (forall e : exn, @Ok (option Q) None <> Raise e).
Proof.
  split; [|done]. split.
  - intros Hnone.
    destruct (Z_lt_le_dec P (Z.of_nat (length prices))) as [Hlen|Hlen]; [|done].
    destruct (decide (P = 0%Z)) as [->|HP].
    + rewrite compute_rsi_zero_period in Hnone by lia. done.
    + rewrite compute_rsi_value in Hnone by done. done.
  - apply compute_rsi_short.
Qed.

(** C4: the signal is a function of the RSI alone, the same on equal
    numbers: below 30 it is "buy", above 70 it is "sell", and from 30 to
    70, both included, and on the undefined RSI it is "neutral"; 25 is
    "buy", 30 and 70 are "neutral", 75 is "sell"; and the signal
    [analyze_coin] returns is the signal of the RSI it computed. *)
Theorem signal_of_thresholds :
  (forall r : Q, (r < 30)%Q -> signal_of (Some r) = Buy) /\
  (forall r : Q, (70 < r)%Q -> signal_of (Some r) = Sell) /\
  (forall r : Q, (30 <= r <= 70)%Q -> signal_of (Some r) = Neutral) /\
  signal_of None = Neutral /\
  (forall r r' : Q, (r == r')%Q -> signal_of (Some r) = signal_of (Some r')) /\
  signal_of (Some 25%Q) = Buy /\
  signal_of (Some 30%Q) = Neutral /\
  signal_of (Some 70%Q) = Neutral /\
  signal_of (Some 75%Q) = Sell /\
  (forall (net : network) (k : nat) (c : coin),
     exists rsi : option Q,
       compute_rsi (fetch_prices net k (coin_id c) 15) 14 = Ok rsi /\
       analyze_coin net k c =
       Ok (coin_symbol c, match rsi with Some r => Fin r | None => NaN end,
           signal_of rsi)).
Proof.
  assert (forall r : Q, (r < 30)%Q -> signal_of (Some r) = Buy) as Hbuy.
  { intros r Hr. unfold signal_of. by rewrite (proj2 (Qltb_lt r 30) Hr). }
  assert (forall r : Q, (70 < r)%Q -> signal_of (Some r) = Sell) as Hsell.
  { intros r Hr. unfold signal_of.
    rewrite (proj2 (Qltb_le r 30)) by lra. by rewrite (proj2 (Qgtb_lt r 70) Hr). }
  assert (forall r : Q, (30 <= r <= 70)%Q -> signal_of (Some r) = Neutral) as Hmid.
  { intros r [Hlo Hhi]. unfold signal_of.
    rewrite (proj2 (Qltb_le r 30) Hlo). by rewrite (proj2 (Qgtb_le r 70) Hhi). }
  repeat split; try done.
  - intros r r' Heq.
    destruct (Qlt_le_dec r 30) as [H1|H1].
    + rewrite !Hbuy; [done| |done]. by rewrite <- Heq.
    + destruct (Qlt_le_dec 70 r) as [H2|H2].
      * rewrite !Hsell; [done| |done]. by rewrite <- Heq.
      * rewrite !Hmid; [done| |done]. by rewrite <- Heq.
  - intros net k c.
    destruct (compute_rsi_total (fetch_prices net k (coin_id c) 15) 14) as [rsi Hrsi];
      [done|].
    exists rsi. split; [done|]. unfold analyze_coin. by rewrite Hrsi.
Qed.

(** C5: on a list longer than a period that is not zero, an average
    loss of exactly zero makes [compute_rsi] return exactly 100, so it
    does when none of the deltas of the window is negative, and the
    division by an average loss that is not zero succeeds.  Whatever
    the list and the period, [compute_rsi] raises only when the period
    is zero: the average loss is never a zero divisor. *)
Theorem compute_rsi_zero_loss (prices : list Q) (P : Z) :
  ((P < Z.of_nat (length prices))%Z -> P <> 0%Z ->
   ((average_loss prices P == 0)%Q -> compute_rsi prices P = Ok (Some 100%Q)) /\
   (Forall (fun d => 0 <= d)%Q (window_deltas prices P) ->
    compute_rsi prices P = Ok (Some 100%Q)) /\
   (~ (average_loss prices P == 0)%Q ->
    exists rs : Q,
      truediv (average_gain prices P) (average_loss prices P) = Ok rs)) /\
  (forall e : exn, compute_rsi prices P = Raise e -> P = 0%Z).
Proof.
  split.
  - intros Hlen HP.
    assert ((average_loss prices P == 0)%Q -> compute_rsi prices P = Ok (Some 100%Q))
      as Hzero.
    { intros Hloss. rewrite compute_rsi_value by done.
      by rewrite (Qeq_eq_bool _ _ Hloss). }
    split; [done|]. split.
    + intros Hdeltas. apply Hzero. unfold average_loss.
      rewrite sum_zero; [unfold Qdiv; ring|].
      unfold loss_bucket. apply Forall_fmap, List.Forall_forall. intros d Hd.
      apply List.filter_In in Hd as [Hin Hd]. apply Qle_bool_iff in Hd.
      rewrite List.Forall_forall in Hdeltas. specialize (Hdeltas d Hin).
      simpl in *. assert (d == 0)%Q as -> by lra. reflexivity.
    + intros Hloss. rewrite truediv_nonzero by done. eauto.
  - intros e He. destruct (decide (P = 0%Z)) as [HP|HP]; [done|].
    destruct (compute_rsi_total prices P HP) as [r Hr]. congruence.
Qed.

(** C8: on a list longer than a period that is not zero [compute_rsi]
    returns a number, and every number it returns, whatever the list
    and the period, lies between 0 and 100, both included. *)
Theorem compute_rsi_range (prices : list Q) (P : Z) :
  ((P < Z.of_nat (length prices))%Z -> P <> 0%Z ->
   exists v : Q, compute_rsi prices P = Ok (Some v)) /\
  (forall v : Q, compute_rsi prices P = Ok (Some v) -> (0 <= v <= 100)%Q).
Proof.
  split.
  - intros Hlen HP. rewrite compute_rsi_value by done. eauto.
  - intros v Hv.
    destruct (Z_lt_le_dec P (Z.of_nat (length prices))) as [Hlen|Hlen].
    + destruct (decide (P = 0%Z)) as [->|HP].
      * rewrite compute_rsi_zero_period in Hv by lia. done.
      * rewrite compute_rsi_value in Hv by done. injection Hv as <-.
        destruct (Qeq_bool (average_loss prices P) 0) eqn:E; [lra|].
        apply Qeq_bool_neq in E.
        pose proof (average_loss_nonneg prices P) as Hl.
        assert (0 < average_loss prices P)%Q as Hpos.
        { apply Qle_lteq in Hl as [Hl|Hl]; [done|]. by symmetry in Hl. }
        apply rsi_value_bounds, Qdiv_nonneg; [apply average_gain_nonneg|done].
    + rewrite compute_rsi_short in Hv by done. done.
Qed.

(** ** The order of [str] *)

Import BlockassetData.

Lemma str_lt_lts (a b : string) : str_lt a b <-> String_as_OT.lt a b.
Proof.
  unfold str_lt, String.ltb. rewrite <- String_as_OT.cmp_lt.
  unfold String_as_OT.cmp. destruct (String.compare a b); intuition congruence.
Qed.

Lemma str_le_lt_eq (a b : string) : str_le a b <-> str_lt a b \/ a = b.
Proof.
  unfold str_le, str_lt, String.leb, String.ltb.
  rewrite <- String_as_OT.cmp_eq. unfold String_as_OT.cmp.
  destruct (String.compare a b); intuition congruence.
Qed.

#[global] Instance str_le_total : Total str_le.
Proof. intros a b. apply String.leb_total. Qed.

#[global] Instance str_le_trans : Transitive str_le.
Proof.
  intros a b c. rewrite !str_le_lt_eq, !str_lt_lts.
  intros [Hab| ->] [Hbc| ->]; eauto using String_as_OT.lt_trans.
Qed.

Lemma str_le_neq_lt (a b : string) : str_le a b -> a <> b -> str_lt a b.
Proof. rewrite str_le_lt_eq. intuition congruence. Qed.

(** A sorted list without a repetition is strictly increasing. *)
Lemma StronglySorted_le_NoDup (l : list string) :
  StronglySorted str_le l -> NoDup l -> StronglySorted str_lt l.
Proof.
  induction 1 as [|a l _ IH Hall]; intros Hnd; [constructor|].
  apply NoDup_cons in Hnd as [Ha Hnd]. constructor; [by apply IH|].
  rewrite List.Forall_forall in *. intros b Hb.
  apply str_le_neq_lt; [by apply Hall|].
  intros ->. apply Ha. by apply list_elem_of_In.
Qed.

Lemma sorted_strictly (l : list string) :
  NoDup l -> StronglySorted str_lt (sorted l).
Proof.
  intros Hnd. apply StronglySorted_le_NoDup.
  - apply StronglySorted_merge_sort; apply _.
  - unfold sorted. by rewrite merge_sort_Permutation.
Qed.

Lemma elem_of_sorted (l : list string) (d : string) : d ∈ sorted l <-> d ∈ l.
Proof. unfold sorted. by rewrite merge_sort_Permutation. Qed.

(** ** [fetch_price_history]: the dict and the rows *)

Lemma per_date_loop_bucketed (samples : list (Z * Q)) (per_date : gmap string (Z * Q)) :
  datable samples ->
  per_date_loop samples per_date = Ok (bucketed samples per_date).
Proof.
  intros Hok. revert per_date.
  induction Hok as [|[ts price] samples Hs _ IH]; intros per_date; [done|].
  cbn [per_date_loop]. unfold utc_date. simpl in Hs. rewrite Hs.
  cbn [mbind result_bind]. by rewrite IH.
Qed.

(** Last write wins: a key holds the sample seen last for it. *)
Lemma bucketed_lookup (samples : list (Z * Q)) (per_date : gmap string (Z * Q))
    (d : string) :
  bucketed samples per_date !! d =
  match last_seen d samples with
  | Some s => Some s
  | None => per_date !! d
  end.
Proof.
  revert per_date. induction samples as [|s samples IH]; intros per_date; [done|].
  unfold bucketed in *. cbn [foldl]. rewrite IH.
  unfold last_seen, samples_of. rewrite filter_cons.
  destruct (decide (date_of s = d)) as [Hd|Hd].
  - rewrite last_cons.
    destruct (last (filter (fun s => date_of s = d) samples)); [done|].
    by rewrite Hd, lookup_insert_eq.
  - destruct (last (filter (fun s => date_of s = d) samples)); [done|].
    by rewrite lookup_insert_ne.
Qed.

Lemma last_seen_date (d : string) (samples : list (Z * Q)) (s : Z * Q) :
  last_seen d samples = Some s -> date_of s = d /\ s ∈ samples.
Proof.
  intros Hs. apply last_Some_elem_of in Hs.
  by apply list_elem_of_filter in Hs.
Qed.

Lemma last_seen_is_Some (d : string) (samples : list (Z * Q)) :
  is_Some (last_seen d samples) <-> d ∈ dates samples.
Proof.
  unfold last_seen, dates. rewrite last_is_Some, list_elem_of_fmap. split.
  - intros Hne. destruct (samples_of d samples) as [|s l] eqn:E; [done|].
    assert (s ∈ samples_of d samples) as Hs by (rewrite E; left).
    apply list_elem_of_filter in Hs as [Hd Hs]. eauto.
  - intros (s & -> & Hs) Hnil.
    assert (s ∈ samples_of (date_of s) samples) as Hin
      by (by apply list_elem_of_filter).
    rewrite Hnil in Hin. by apply elem_of_nil in Hin.
Qed.

Lemma elem_of_keys {A : Type} (m : gmap string A) (d : string) :
  d ∈ keys m <-> is_Some (m !! d).
Proof.
  unfold keys. rewrite list_elem_of_fmap. split.
  - intros ([d' x] & -> & Hx). apply elem_of_map_to_list in Hx. eauto.
  - intros [x Hx]. exists (d, x). split; [done|]. by apply elem_of_map_to_list.
Qed.

Lemma mapM_result_cons {A B : Type} (f : A -> result B) (x : A) (l : list A) :
  mapM f (x :: l) = y ← f x; k ← mapM f l; Ok (y :: k).
Proof. reflexivity. Qed.

(** Reading a list of keys that are all there. *)
Lemma mapM_dict_getitem {A : Type} (m : gmap string A) (ks : list string) :
  Forall (fun d => is_Some (m !! d)) ks ->
  exists rows, mapM (dict_getitem m) ks = Ok rows /\
               Forall2 (fun d r => m !! d = Some r) ks rows.
Proof.
  induction 1 as [|d ks [r Hr] _ (rows & Hrows & Hall)].
  - exists []. split; [done|constructor].
  - exists (r :: rows). split; [|by constructor].
    rewrite mapM_result_cons, Hrows. unfold dict_getitem. by rewrite Hr.
Qed.

(** The first timestamp [datetime] cannot hold makes the loop raise
    its exception. *)
Lemma per_date_loop_first_undatable
    (l1 l2 : list (Z * Q)) (x : Z * Q) (per_date : gmap string (Z * Q)) :
  datable l1 -> in_range x.1 = false ->
  per_date_loop (l1 ++ x :: l2) per_date = Raise (date_error x.1).
Proof.
  intros Hok Hx. revert per_date.
  induction Hok as [|[ts price] l1 Hs _ IH]; intros per_date.
  - destruct x as [ts price]. cbn [app per_date_loop]. unfold utc_date.
    simpl in Hx. by rewrite Hx.
  - cbn [app per_date_loop]. unfold utc_date at 1. simpl in Hs. rewrite Hs.
    cbn [mbind result_bind]. apply IH.
Qed.

(** A list that cannot be dated has a first sample that cannot. *)
Lemma undatable_first (samples : list (Z * Q)) :
  ~ datable samples ->
  exists (l1 l2 : list (Z * Q)) (x : Z * Q),
    samples = l1 ++ x :: l2 /\ datable l1 /\ in_range x.1 = false.
Proof.
  induction samples as [|s samples IH]; intros Hno.
  - destruct Hno. constructor.
  - destruct (in_range s.1) eqn:E.
    + destruct IH as (l1 & l2 & x & -> & Hok & Hx).
      { intros Hok. apply Hno. by constructor. }
      exists (s :: l1), l2, x. split; [done|]. split; [by constructor|done].
    + exists [], samples, s. split; [done|]. split; [constructor|done].
Qed.

Lemma per_date_loop_undatable (samples : list (Z * Q)) (per_date : gmap string (Z * Q)) :
  ~ datable samples -> exists e : exn, per_date_loop samples per_date = Raise e.
Proof.
  intros Hno. destruct (undatable_first samples Hno) as (l1 & l2 & x & -> & Hok & Hx).
  eexists. by apply per_date_loop_first_undatable.
Qed.

Lemma fetch_price_history_undatable
    (net : BlockassetData.network) (days : Z) (l1 l2 : list (Z * Q)) (x : Z * Q) :
  BlockassetData.market_chart net days = Body (Some (l1 ++ x :: l2)) ->
  datable l1 -> in_range x.1 = false ->
  fetch_price_history net days = Raise (date_error x.1).
Proof.
  intros Hchart Hok Hx. unfold fetch_price_history. rewrite Hchart.
  change (default [] (Some (l1 ++ x :: l2))) with (l1 ++ x :: l2).
  by rewrite per_date_loop_first_undatable.
Qed.

Lemma bucketed_empty_lookup (samples : list (Z * Q)) (d : string) :
  bucketed samples ∅ !! d = last_seen d samples.
Proof.
  rewrite bucketed_lookup, lookup_empty. by destruct (last_seen d samples).
Qed.

(** Rows read under keys that hold the last sample of their date. *)
Lemma rows_of_keys (samples : list (Z * Q)) (ks : list string) (rows : list (Z * Q)) :
  Forall2 (fun d r => last_seen d samples = Some r) ks rows ->
  dates rows = ks /\
  (forall r, r ∈ rows -> last_seen (date_of r) samples = Some r).
Proof.
  induction 1 as [|d r ks rows Hr _ [IHd IHr]].
  - split; [done|]. intros r Hr. by apply elem_of_nil in Hr.
  - destruct (last_seen_date _ _ _ Hr) as [Hd _]. split.
    + unfold dates in *. rewrite fmap_cons. by f_equal.
    + intros r' Hr'. apply elem_of_cons in Hr' as [->|Hr']; [|by apply IHr].
      by rewrite Hd.
Qed.

(** C1: when the chart answers with a list of samples whose timestamps
    [datetime] can hold, [fetch_price_history] returns rows whose dates
    are strictly ascending in the order of the date strings, whatever
    the order of the input; no date is repeated; the dates of the rows
    are exactly the dates of the samples; and each row is the sample
    that came last in the input among those of its date. *)
Theorem fetch_price_history_daily_series
    (net : BlockassetData.network) (days : Z) (samples : list (Z * Q)) :
  BlockassetData.market_chart net days = Body (Some samples) ->
  datable samples ->
  exists rows : list (Z * Q),
    fetch_price_history net days = Ok rows /\
    StronglySorted str_lt (dates rows) /\
    NoDup (dates rows) /\
    (forall d : string, d ∈ dates rows <-> d ∈ dates samples) /\
    (forall r : Z * Q, r ∈ rows -> last_seen (date_of r) samples = Some r).
Proof.
  intros Hchart Hok. unfold fetch_price_history. rewrite Hchart.
  cbn [default]. rewrite per_date_loop_bucketed by done.
  cbn [mbind result_bind].
  set (m := bucketed samples ∅).
  assert (forall d, d ∈ sorted (keys m) <-> d ∈ dates samples) as Hkeys.
  { intros d. rewrite elem_of_sorted, elem_of_keys. unfold m.
    rewrite bucketed_empty_lookup. apply last_seen_is_Some. }
  destruct (mapM_dict_getitem m (sorted (keys m))) as (rows & Hrows & Hall).
  { apply Forall_forall. intros d Hd. by apply elem_of_keys, elem_of_sorted. }
  assert (Forall2 (fun d r => last_seen d samples = Some r) (sorted (keys m)) rows)
    as Hlast.
  { eapply Forall2_impl; [exact Hall|]. intros d r Hr. simpl in Hr.
    unfold m in Hr. by rewrite bucketed_empty_lookup in Hr. }
  destruct (rows_of_keys _ _ _ Hlast) as [Hdates Hrow].
  exists rows. rewrite Hdates. repeat split; try done.
  - apply sorted_strictly, NoDup_fst_map_to_list.
  - unfold sorted. rewrite merge_sort_Permutation. apply NoDup_fst_map_to_list.
  - by apply Hkeys.
  - by apply Hkeys.
Qed.

(** ** The loop of the trending tool *)

Import CryptoTrending.

Lemma compute_rsi_14 (prices : list Q) : compute_rsi prices 14 = Ok (rsi14 prices).
Proof.
  unfold rsi14. destruct (Z.leb_spec (Z.of_nat (length prices)) 14) as [Hlen|Hlen].
  - by apply compute_rsi_short.
  - by apply compute_rsi_value.
Qed.

Lemma analyze_coin_rsi14 (net : network) (k : nat) (c : coin) :
  analyze_coin net k c =
  let rsi := rsi14 (fetch_prices net k (coin_id c) 15) in
  Ok (coin_symbol c, match rsi with Some r => Fin r | None => NaN end, signal_of rsi).
Proof. unfold analyze_coin. by rewrite compute_rsi_14. Qed.

Lemma main_loop_rows (net : network) (k : nat) (coins : list coin) :
  main_loop net k coins = Ok (expected_rows net k coins).
Proof.
  revert k. induction coins as [|c coins IH]; intros k; [done|].
  cbn [main_loop expected_rows]. rewrite analyze_coin_rsi14, IH.
  unfold expected_row. cbv zeta. cbn [mbind result_bind].
  by destruct (rsi14 (fetch_prices net k (coin_id c) 15)).
Qed.

Lemma length_expected_rows (net : network) (k : nat) (coins : list coin) :
  length (expected_rows net k coins) = length coins.
Proof. revert k. induction coins as [|c coins IH]; intros k; simpl; auto. Qed.

Lemma lookup_expected_rows (net : network) (k i : nat) (coins : list coin) :
  expected_rows net k coins !! i = expected_row net (k + i) <$> coins !! i.
Proof.
  revert k i. induction coins as [|c coins IH]; intros k [|i].
  - reflexivity.
  - reflexivity.
  - cbn [expected_rows]. rewrite Nat.add_0_r. reflexivity.
  - cbn [expected_rows]. rewrite !lookup_cons. rewrite IH.
    replace (S k + i)%nat with (k + S i)%nat by lia. reflexivity.
Qed.

Lemma main_outcome (a : args) (net : network) (fs : csv_files) (dbs : databases)
    (coins : list coin) :
  fetch_trending net = Ok coins ->
  main a net fs dbs =
  let rows := expected_rows net 0 (take 7 coins) in
  Ok (rows,
      match given (arg_csv a) with Some p => save_csv rows p fs | None => fs end,
      match given (arg_db a) with Some p => save_db rows p dbs | None => dbs end).
Proof.
  intros Hcoins. unfold main. rewrite Hcoins. cbn [mbind result_bind].
  rewrite main_loop_rows. reflexivity.
Qed.

Lemma main_results (a : args) (net : network) (fs : csv_files) (dbs : databases)
    (coins : list coin) :
  fetch_trending net = Ok coins ->
  exists (fs' : csv_files) (dbs' : databases),
    main a net fs dbs = Ok (expected_rows net 0 (take 7 coins), fs', dbs').
Proof. intros Hcoins. rewrite (main_outcome _ _ _ _ _ Hcoins). eauto. Qed.

(** ** The claims on the trending tool's batch *)

(** C6: let one chart request of a run, the [j]-th, fail in transport,
    the rest of the network being the same.  The fetch of that coin
    gives the empty list, whose RSI is undefined and whose signal is
    "neutral"; the run still returns a row for each selected coin; the
    row of the coin that failed holds no RSI and "neutral"; and every
    other row is the row of the run without the failure. *)
Theorem per_coin_isolation
    (a : CryptoTrending.args) (net net' : CryptoTrending.network)
    (fs : csv_files) (dbs : databases) (j : nat) (coins : list coin) :
  fetch_trending net = Ok coins ->
  trending_search net' = trending_search net ->
  (forall (id : string) (days : Z), CryptoTrending.market_chart net' j id days = Failed) ->
  (forall (k : nat) (id : string) (days : Z),
     k <> j ->
     CryptoTrending.market_chart net' k id days = CryptoTrending.market_chart net k id days) ->
  (forall (id : option string) (days : Z), fetch_prices net' j id days = []) /\
  compute_rsi [] 14 = Ok None /\
  signal_of None = Neutral /\
  exists (rows rows' : list row) (fs1 fs2 : csv_files) (dbs1 dbs2 : databases),
    CryptoTrending.main a net fs dbs = Ok (rows, fs1, dbs1) /\
    CryptoTrending.main a net' fs dbs = Ok (rows', fs2, dbs2) /\
    length rows = length (take 7 coins) /\
    length rows' = length (take 7 coins) /\
    (forall c : coin,
       take 7 coins !! j = Some c ->
       rows' !! j = Some (Row (coin_name c) (coin_symbol c) None Neutral)) /\
    (forall i : nat, i <> j -> rows' !! i = rows !! i).
Proof.
  intros Hcoins Htrend Hfail Hsame.
  assert (forall id days, fetch_prices net' j id days = []) as Hempty.
  { intros id days. unfold fetch_prices. by rewrite Hfail. }
  split; [done|]. split; [done|]. split; [done|].
  assert (fetch_trending net' = Ok coins) as Hcoins'.
  { unfold fetch_trending in *. by rewrite Htrend. }
  destruct (main_results a net fs dbs coins Hcoins) as (fs1 & dbs1 & Hmain).
  destruct (main_results a net' fs dbs coins Hcoins') as (fs2 & dbs2 & Hmain').
  exists (expected_rows net 0 (take 7 coins)), (expected_rows net' 0 (take 7 coins)),
    fs1, fs2, dbs1, dbs2.
  split; [done|]. split; [done|]. rewrite !length_expected_rows.
  split; [done|]. split; [done|]. split.
  - intros c Hc. rewrite lookup_expected_rows, Hc. simpl.
    unfold expected_row. by rewrite Hempty.
  - intros i Hi. rewrite !lookup_expected_rows. simpl.
    destruct (take 7 coins !! i) as [c|]; [|done]. simpl.
    unfold expected_row, fetch_prices. by rewrite Hsame.
Qed.

(** C7: when the trending search answers, [fetch_trending] returns its
    entries one for one in their order, and [main] analyses the first 7
    of them, in that order: all of them when there are at most 7, and 7
    when there are more.  Its rows are those of that prefix, position
    by position. *)
Theorem trending_selection
    (a : CryptoTrending.args) (net : CryptoTrending.network)
    (fs : csv_files) (dbs : databases) (entries : list (option coin)) :
  trending_search net = Body (Some entries) ->
  exists (coins : list coin) (rows : list row) (fs' : csv_files) (dbs' : databases),
    fetch_trending net = Ok coins /\
    coins = default (Coin None None None) <$> entries /\
    CryptoTrending.main a net fs dbs = Ok (rows, fs', dbs') /\
    rows = expected_rows net 0 (take 7 coins) /\
    length rows = Nat.min 7 (length entries) /\
    (length rows <= 7)%nat /\
    ((length entries <= 7)%nat -> take 7 coins = coins) /\
    (forall i : nat, (i < 7)%nat -> take 7 coins !! i = coins !! i) /\
    (forall (i : nat) (c : coin),
       take 7 coins !! i = Some c ->
       exists r : row,
         rows !! i = Some r /\ row_name r = coin_name c /\ row_symbol r = coin_symbol c).
Proof.
  intros Hsearch.
  assert (fetch_trending net = Ok (default (Coin None None None) <$> entries)) as Hcoins.
  { unfold fetch_trending. by rewrite Hsearch. }
  destruct (main_results a net fs dbs _ Hcoins) as (fs' & dbs' & Hmain).
  eexists _, _, fs', dbs'. split; [exact Hcoins|]. split; [done|].
  split; [exact Hmain|]. split; [done|].
  rewrite length_expected_rows, length_take, length_fmap.
  split; [done|]. split; [lia|]. split; [|split].
  - intros Hlen. apply take_ge. by rewrite length_fmap.
  - intros i Hi. by apply lookup_take_lt.
  - intros i c Hc. rewrite lookup_expected_rows, Hc. simpl. eauto.
Qed.

(** C10: every row of the trending tool stores the computed RSI rounded
    to two decimals, or nothing when the RSI is undefined, next to the
    signal of the RSI as computed, not as rounded; these are the values
    both sinks receive.  On the prices [near_thirty] the RSI is 29.999:
    the row stores 30 with the signal "buy", while 30 itself is
    "neutral". *)
Theorem stored_rsi_rounded :
  (forall (net : CryptoTrending.network) (k : nat) (coins : list coin),
     exists rows : list row,
       main_loop net k coins = Ok rows /\
       forall (i : nat) (c : coin),
         coins !! i = Some c ->
         exists rsi : option Q,
           compute_rsi (fetch_prices net (k + i) (coin_id c) 15) 14 = Ok rsi /\
           rows !! i = Some (Row (coin_name c) (coin_symbol c) (round2 <$> rsi)
                                 (signal_of rsi))) /\
  (forall r : row,
     cells r = [opt_str (row_name r); opt_str (row_symbol r); opt_num (row_rsi r);
                VStr (signal_str (row_signal r))]) /\
  (exists v : Q,
     compute_rsi near_thirty 14 = Ok (Some v) /\
     (v == 29.999)%Q /\
     (round2 v == 30)%Q /\
     signal_of (Some v) = Buy /\
     signal_of (Some (round2 v)) = Neutral).
Proof.
  split; [|split; [done|]].
  - intros net k coins. exists (expected_rows net k coins).
    split; [apply main_loop_rows|]. intros i c Hc.
    exists (rsi14 (fetch_prices net (k + i) (coin_id c) 15)).
    split; [apply compute_rsi_14|]. by rewrite lookup_expected_rows, Hc.
  - eexists. split; [vm_compute; reflexivity|]. by vm_compute.
Qed.

(** ** The sinks *)

(** Writing records one by one to a file that holds [l] so far. *)
Lemma writerow_insert (path : string) (r : list value) (l : list (list value))
    (fs : csv_files) :
  writerow path r (<[path := l]> fs) = <[path := l ++ [r]]> fs.
Proof. unfold writerow. by rewrite alter_insert_eq. Qed.

Lemma writerows_insert {A : Type} (f : A -> list value) (path : string) (rows : list A)
    (l : list (list value)) (fs : csv_files) :
  foldl (fun fs r => writerow path (f r) fs) (<[path := l]> fs) rows =
  <[path := l ++ (f <$> rows)]> fs.
Proof.
  revert l. induction rows as [|r rows IH]; intros l; simpl.
  - by rewrite app_nil_r.
  - rewrite writerow_insert, IH. by rewrite <- app_assoc.
Qed.

(** Create if missing, clear, insert: the table holds the new rows. *)
Lemma table_replaced (t : string) (rows : list (list value)) (db : database) :
  executemany_insert t rows (delete_from t (create_table_if_not_exists t db)) =
  <[t := rows]> db.
Proof.
  unfold executemany_insert, delete_from, create_table_if_not_exists.
  apply map_eq. intros k. destruct (decide (k = t)) as [->|Hk].
  - rewrite !lookup_alter_eq, lookup_insert_eq.
    destruct (db !! t) as [old|] eqn:E.
    + by rewrite E.
    + by rewrite lookup_insert_eq.
  - rewrite !lookup_alter_ne, lookup_insert_ne by done.
    destruct (db !! t); [done|]. by rewrite lookup_insert_ne.
Qed.

Lemma connect_commit (path : string) (db : database) (dbs : databases) :
  connect path (commit path db dbs) = db.
Proof. unfold connect, commit. by rewrite lookup_insert_eq. Qed.

Lemma trending_save_csv (rows : list row) (path : string) (fs : csv_files) :
  CryptoTrending.save_csv rows path fs =
  <[path := CryptoTrending.header :: (cells <$> rows)]> fs.
Proof.
  unfold CryptoTrending.save_csv, open_w.
  by rewrite writerow_insert, writerows_insert.
Qed.

Lemma trending_save_db (rows : list row) (path : string) (dbs : databases) :
  CryptoTrending.save_db rows path dbs =
  <[path := <["trending" := cells <$> rows]> (connect path dbs)]> dbs.
Proof. unfold CryptoTrending.save_db. by rewrite table_replaced. Qed.

(** The records of the price tool's rows, made before anything is
    inserted. *)
Lemma mapM_db_row (rows : list (Z * Q)) :
  datable rows -> mapM db_row rows = Ok (record <$> rows).
Proof.
  induction 1 as [|r rows Hr _ IH]; [done|].
  rewrite mapM_result_cons, IH. unfold db_row, utc_date. by rewrite Hr.
Qed.

Lemma save_csv_loop_insert (rows : list (Z * Q)) (path : string)
    (l : list (list value)) (fs : csv_files) :
  save_csv_loop rows path (<[path := l]> fs) =
  recs ← mapM db_row rows; Ok (<[path := l ++ recs]> fs).
Proof.
  revert l. induction rows as [|[ts price] rows IH]; intros l.
  - simpl. by rewrite app_nil_r.
  - cbn [save_csv_loop]. rewrite mapM_result_cons.
    replace (db_row (ts, price))
      with (date ← utc_date ts; Ok [VStr date; VNum price]) by done.
    destruct (utc_date ts) as [date|e]; [|done].
    cbn [mbind result_bind]. rewrite writerow_insert, IH.
    destruct (mapM db_row rows) as [recs|e]; [|done].
    cbn [mbind result_bind]. by rewrite <- app_assoc.
Qed.

Lemma prices_save_csv (rows : list (Z * Q)) (path : string) (fs : csv_files) :
  BlockassetData.save_csv rows path fs =
  recs ← mapM db_row rows; Ok (<[path := BlockassetData.header :: recs]> fs).
Proof.
  unfold BlockassetData.save_csv, open_w.
  by rewrite writerow_insert, save_csv_loop_insert.
Qed.

Lemma prices_save_db (rows : list (Z * Q)) (path : string) (dbs : databases) :
  BlockassetData.save_db rows path dbs =
  recs ← mapM db_row rows;
  Ok (<[path := <["prices" := recs]> (connect path dbs)]> dbs).
Proof.
  unfold BlockassetData.save_db.
  destruct (mapM db_row rows) as [recs|e]; [|done].
  cbn [mbind result_bind]. by rewrite table_replaced.
Qed.

(** C9: each of the four sinks overwrites.  Writing the rows [B] after
    the rows [A] leaves the store that writing [B] alone leaves, and
    what the target then holds is the header (for a CSV file) and one
    record per row of [B], in the order of [B].  The sinks of the
    trending tool cannot fail in the model; those of the price tool
    succeed, both times, on rows whose timestamps [datetime] can hold,
    as the rows of [fetch_price_history] are. *)
Theorem sinks_overwrite :
  (forall (A B : list row) (path : string) (fs : csv_files),
     CryptoTrending.save_csv B path (CryptoTrending.save_csv A path fs) =
     CryptoTrending.save_csv B path fs /\
     CryptoTrending.save_csv B path fs !! path =
     Some (CryptoTrending.header :: (cells <$> B))) /\
  (forall (A B : list row) (path : string) (dbs : databases),
     CryptoTrending.save_db B path (CryptoTrending.save_db A path dbs) =
     CryptoTrending.save_db B path dbs /\
     table path "trending" (CryptoTrending.save_db B path dbs) = Some (cells <$> B)) /\
  (forall (A B : list (Z * Q)) (path : string) (fs : csv_files),
     datable A ->
     datable B ->
     exists fsA fsB : csv_files,
       BlockassetData.save_csv A path fs = Ok fsA /\
       BlockassetData.save_csv B path fsA = Ok fsB /\
       BlockassetData.save_csv B path fs = Ok fsB /\
       fsB !! path = Some (BlockassetData.header :: (record <$> B))) /\
  (forall (A B : list (Z * Q)) (path : string) (dbs : databases),
     datable A ->
     datable B ->
     exists dbsA dbsB : databases,
       BlockassetData.save_db A path dbs = Ok dbsA /\
       BlockassetData.save_db B path dbsA = Ok dbsB /\
       BlockassetData.save_db B path dbs = Ok dbsB /\
       table path "prices" dbsB = Some (record <$> B)).
Proof.
  split; [|split; [|split]].
  - intros A B path fs. rewrite !trending_save_csv.
    by rewrite insert_insert_eq, lookup_insert_eq.
  - intros A B path dbs. rewrite !trending_save_db. unfold table.
    rewrite insert_insert_eq, lookup_insert_eq. simpl.
    rewrite lookup_insert_eq. split; [|done].
    unfold connect at 1. rewrite lookup_insert_eq. simpl.
    by rewrite insert_insert_eq.
  - intros A B path fs HA HB.
    rewrite (prices_save_csv A), (mapM_db_row A HA). cbn [mbind result_bind].
    eexists _, _. split; [reflexivity|].
    rewrite !prices_save_csv, (mapM_db_row B HB). cbn [mbind result_bind].
    split; [by rewrite insert_insert_eq|]. split; [done|].
    by rewrite lookup_insert_eq.
  - intros A B path dbs HA HB.
    rewrite (prices_save_db A), (mapM_db_row A HA). cbn [mbind result_bind].
    eexists _, _. split; [reflexivity|].
    rewrite !prices_save_db, (mapM_db_row B HB). cbn [mbind result_bind].
    split; [|split; [done|]].
    + unfold connect at 1. rewrite lookup_insert_eq. simpl.
      by rewrite !insert_insert_eq.
    + unfold table. rewrite lookup_insert_eq. simpl. by rewrite lookup_insert_eq.
Qed.

(** * The claims at sample inputs *)

Example fetch_price_history_sample :
  fetch_price_history sample_price_net 365 =
  Ok [(1700000002000%Z, 7%Q); (1700100000000%Z, 3%Q)].
Proof. vm_compute. reflexivity. Qed.

Example compute_rsi_wilder :
  exists v : Q, compute_rsi wilder 14 = Ok (Some v) /\ (v == 7700 # 91)%Q.
Proof. eexists. split; [vm_compute; reflexivity|]. by vm_compute. Qed.

Example compute_rsi_period_zero :
  compute_rsi [44%Q] 0 = Raise ZeroDivisionError.
Proof. reflexivity. Qed.

Example compute_rsi_period_negative :
  compute_rsi [44%Q] (-3) = Ok (Some 100%Q).
Proof. reflexivity. Qed.

Example trending_main_sample :
  exists (rows : list row) (fs : csv_files) (dbs : databases),
    CryptoTrending.main sample_args sample_net_failing ∅ ∅ = Ok (rows, fs, dbs) /\
    row_rsi <$> rows !! 1%nat = Some None /\
    length rows = 7%nat /\
    fs !! "out.csv" = Some (CryptoTrending.header :: (cells <$> rows)) /\
    table "out.db" "trending" dbs = Some (cells <$> rows).
Proof.
  pose proof (main_outcome sample_args sample_net_failing ∅ ∅
                (default (Coin None None None) <$> sample_entries) eq_refl) as Hmain.
  cbv zeta in Hmain. eexists _, _, _. split; [exact Hmain|].
  split; [vm_compute; reflexivity|]. split; [vm_compute; reflexivity|].
  change (given (arg_csv sample_args)) with (Some "out.csv").
  change (given (arg_db sample_args)) with (Some "out.db").
  cbv iota beta. rewrite trending_save_csv, trending_save_db. unfold table.
  rewrite !lookup_insert_eq. split; [reflexivity|].
  cbn [mbind option_bind]. apply lookup_insert_eq.
Qed.

(** The daily series of [sample_chart]: out of order on input, three
    samples on one date. *)
Lemma fetch_price_history_daily_series_witness :
  BlockassetData.market_chart sample_price_net 365 = Body (Some sample_chart) /\
  datable sample_chart /\
  exists rows : list (Z * Q),
    fetch_price_history sample_price_net 365 = Ok rows /\
    StronglySorted str_lt (dates rows) /\
    NoDup (dates rows) /\
    (forall d : string, d ∈ dates rows <-> d ∈ dates sample_chart) /\
    (forall r : Z * Q, r ∈ rows -> last_seen (date_of r) sample_chart = Some r).
Proof.
  assert (BlockassetData.market_chart sample_price_net 365 = Body (Some sample_chart))
    as Hchart by reflexivity.
  assert (datable sample_chart) as Hok by (repeat constructor).
  split; [exact Hchart|]. split; [exact Hok|].
  exact (fetch_price_history_daily_series sample_price_net 365 sample_chart Hchart Hok).
Defined.

(** Prices after the fifteenth do not change the RSI of [wilder]. *)
Lemma compute_rsi_leading_window_witness :
  (14 < Z.of_nat (length wilder))%Z /\
  compute_rsi wilder 14 = Ok (Some (rsi_formula wilder 14)) /\
  compute_rsi (wilder ++ [40; 60]%Q) 14 = compute_rsi wilder 14.
Proof.
  assert (14 < Z.of_nat (length wilder))%Z as Hlen by reflexivity.
  destruct (compute_rsi_leading_window wilder 14 Hlen) as (_ & Hformula & _ & Hsame).
  split; [exact Hlen|]. split.
  - apply Hformula. vm_compute. discriminate.
  - apply Hsame; reflexivity.
Defined.

(** Two prices are too few for a period of 14. *)
Lemma compute_rsi_undefined_iff_witness :
  (Z.of_nat (length [44; 45]%Q) <= 14)%Z /\ compute_rsi [44; 45]%Q 14 = Ok None.
Proof.
  assert (Z.of_nat (length [44; 45]%Q) <= 14)%Z as Hlen by (vm_compute; discriminate).
  split; [exact Hlen|].
  exact (proj2 (proj1 (compute_rsi_undefined_iff [44; 45]%Q 14)) Hlen).
Defined.

(** Just below 30 is still "buy". *)
Lemma signal_of_thresholds_witness :
  (29.999 < 30)%Q /\ signal_of (Some 29.999%Q) = Buy.
Proof.
  assert (29.999 < 30)%Q as Hlt by reflexivity.
  split; [exact Hlt|]. exact (proj1 signal_of_thresholds 29.999%Q Hlt).
Defined.

(** Prices that never fall have an RSI of 100. *)
Lemma compute_rsi_zero_loss_witness :
  (14 < Z.of_nat (length rising))%Z /\ 14%Z <> 0%Z /\
  compute_rsi rising 14 = Ok (Some 100%Q).
Proof.
  assert (14 < Z.of_nat (length rising))%Z as Hlen by reflexivity.
  assert (14%Z <> 0%Z) as HP by discriminate.
  destruct (proj1 (compute_rsi_zero_loss rising 14) Hlen HP) as (Hzero & _).
  split; [exact Hlen|]. split; [exact HP|]. apply Hzero. reflexivity.
Defined.

(** The RSI of [wilder] is a number between 0 and 100. *)
Lemma compute_rsi_range_witness :
  exists v : Q, compute_rsi wilder 14 = Ok (Some v) /\ (0 <= v <= 100)%Q.
Proof.
  destruct (compute_rsi_range wilder 14) as [Hreturns Hbounds].
  destruct Hreturns as [v Hv]; [reflexivity|discriminate|].
  exists v. split; [exact Hv|]. exact (Hbounds v Hv).
Defined.

(** The second chart request fails: the second row is neutral, the
    others are untouched. *)
Lemma per_coin_isolation_witness :
  exists rows rows' : list row,
    length rows = 7%nat /\ length rows' = 7%nat /\
    rows' !! 1%nat = Some (Row (Some "B") (Some "b") None Neutral) /\
    (forall i : nat, i <> 1%nat -> rows' !! i = rows !! i).
Proof.
  destruct (per_coin_isolation sample_args sample_net sample_net_failing ∅ ∅ 1
              (default (Coin None None None) <$> sample_entries))
    as (_ & _ & _ & rows & rows' & _ & _ & _ & _ & _ & _ & Hlen & Hlen' & Hfail & Hrest).
  - reflexivity.
  - reflexivity.
  - reflexivity.
  - intros k id days Hk. unfold sample_net_failing. cbn [CryptoTrending.market_chart].
    destruct (Nat.eqb_spec k 1) as [Heq|_]; [contradiction|reflexivity].
  - exists rows, rows'. split; [exact Hlen|]. split; [exact Hlen'|].
    split; [|exact Hrest].
    exact (Hfail (Coin (Some "b") (Some "B") (Some "b")) eq_refl).
Defined.

(** Of nine trending entries the first seven are analysed. *)
Lemma trending_selection_witness :
  trending_search sample_net = Body (Some sample_entries) /\
  exists rows : list row,
    rows = expected_rows sample_net 0
             (take 7 (default (Coin None None None) <$> sample_entries)) /\
    length rows = 7%nat.
Proof.
  assert (trending_search sample_net = Body (Some sample_entries)) as Hsearch
    by reflexivity.
  split; [exact Hsearch|].
  destruct (trending_selection sample_args sample_net ∅ ∅ sample_entries Hsearch)
    as (coins & rows & _ & _ & _ & Hcoins & _ & Hrows & Hlen & _).
  exists rows. split; [|exact Hlen]. rewrite Hrows, Hcoins. reflexivity.
Defined.

(** Each of the four sinks, written twice: a file and a table that
    held one row hold the rows of the second write. *)
Lemma sinks_overwrite_witness :
  (CryptoTrending.save_csv [sample_row] "out.csv"
     (CryptoTrending.save_csv [] "out.csv" ∅) !! "out.csv" =
   Some (CryptoTrending.header :: (cells <$> [sample_row]))) /\
  (table "out.db" "trending"
     (CryptoTrending.save_db [sample_row] "out.db" ∅) =
   Some (cells <$> [sample_row])) /\
  datable [(0%Z, 1%Q)] /\
  datable sample_chart /\
  (exists fsA fsB : csv_files,
     BlockassetData.save_csv [(0%Z, 1%Q)] "p.csv" ∅ = Ok fsA /\
     BlockassetData.save_csv sample_chart "p.csv" fsA = Ok fsB /\
     BlockassetData.save_csv sample_chart "p.csv" ∅ = Ok fsB /\
     fsB !! "p.csv" = Some (BlockassetData.header :: (record <$> sample_chart))) /\
  (exists dbsA dbsB : databases,
     BlockassetData.save_db [(0%Z, 1%Q)] "p.db" ∅ = Ok dbsA /\
     BlockassetData.save_db sample_chart "p.db" dbsA = Ok dbsB /\
     BlockassetData.save_db sample_chart "p.db" ∅ = Ok dbsB /\
     table "p.db" "prices" dbsB = Some (record <$> sample_chart)).
Proof.
  assert (datable [(0%Z, 1%Q)]) as HA by (repeat constructor).
  assert (datable sample_chart) as HB by (repeat constructor).
  destruct sinks_overwrite as (Hcsv & Hdb & Hpcsv & Hpdb).
  split.
  { destruct (Hcsv [] [sample_row] "out.csv" ∅) as [Hsame Hholds].
    rewrite Hsame. exact Hholds. }
  split; [exact (proj2 (Hdb [] [sample_row] "out.db" ∅))|].
  split; [exact HA|]. split; [exact HB|].
  split; [exact (Hpcsv _ _ "p.csv" ∅ HA HB)|exact (Hpdb _ _ "p.db" ∅ HA HB)].
Defined.

(** The row of the first coin of [sample_net]. *)
Lemma stored_rsi_rounded_witness :
  exists rows : list row,
    main_loop sample_net 0 [Coin (Some "a") (Some "A") (Some "a")] = Ok rows /\
    exists rsi : option Q,
      compute_rsi (fetch_prices sample_net 0 (Some "a") 15) 14 = Ok rsi /\
      rows !! 0%nat = Some (Row (Some "A") (Some "a") (round2 <$> rsi) (signal_of rsi)).
Proof.
  destruct (proj1 stored_rsi_rounded sample_net 0%nat
              [Coin (Some "a") (Some "A") (Some "a")]) as (rows & Hrows & Hrow).
  exists rows. split; [exact Hrows|].
  exact (Hrow 0%nat (Coin (Some "a") (Some "A") (Some "a")) eq_refl).
Defined.

(** * Further properties of the code *)

(** ** [compute_rsi]: closed form, extremes, invariance *)

Lemma sum_pos (l : list Q) :
  Forall (fun x => 0 < x)%Q l -> l <> [] -> (0 < sum l)%Q.
Proof.
  intros Hl Hne. destruct Hl as [|x l Hx Hl]; [done|].
  rewrite sum_cons.
  assert (0 <= sum l)%Q.
  { apply sum_nonneg. eapply Forall_impl; [exact Hl|]. intros y Hy. simpl in Hy. lra. }
  lra.
Qed.

Lemma sum_nonneg_zero (l : list Q) :
  Forall (fun x => 0 <= x)%Q l -> (sum l == 0)%Q -> Forall (fun x => x == 0)%Q l.
Proof.
  induction 1 as [|x l Hx Hl IH]; intros Hsum; [constructor|].
  rewrite sum_cons in Hsum. pose proof (sum_nonneg l Hl) as Hs.
  constructor; [lra|]. apply IH. lra.
Qed.

Lemma total_gain_nonneg (prices : list Q) (P : Z) : (0 <= total_gain prices P)%Q.
Proof.
  apply sum_nonneg. eapply Forall_impl; [apply gain_bucket_pos|].
  intros x Hx. simpl in Hx. lra.
Qed.

Lemma total_loss_nonneg (prices : list Q) (P : Z) : (0 <= total_loss prices P)%Q.
Proof. apply sum_nonneg, loss_bucket_nonneg. Qed.

Lemma average_loss_zero_iff (prices : list Q) (P : Z) :
  P <> 0%Z -> (average_loss prices P == 0)%Q <-> (total_loss prices P == 0)%Q.
Proof.
  intros HP. pose proof (inject_Z_nonzero P HP) as HP'.
  unfold average_loss. fold (total_loss prices P). split.
  - intros H0.
    assert (total_loss prices P == total_loss prices P / inject_Z P * inject_Z P)%Q
      as -> by (field; exact HP').
    rewrite H0. ring.
  - intros ->. unfold Qdiv. ring.
Qed.

(** The averaging by the period cancels in the closing formula. *)
Lemma rsi_formula_closed (prices : list Q) (P : Z) :
  P <> 0%Z -> ~ (total_loss prices P == 0)%Q ->
  (rsi_formula prices P ==
   100 * total_gain prices P / (total_gain prices P + total_loss prices P))%Q.
Proof.
  intros HP HL. pose proof (inject_Z_nonzero P HP) as HP'.
  pose proof (total_gain_nonneg prices P) as HG.
  pose proof (total_loss_nonneg prices P) as HL0.
  unfold rsi_formula, average_gain, average_loss.
  fold (total_gain prices P). fold (total_loss prices P).
  assert (~ (total_gain prices P + total_loss prices P == 0)%Q) as Hsum by lra.
  set (G := total_gain prices P) in *. set (L := total_loss prices P) in *.
  assert (G / inject_Z P / (L / inject_Z P) == G / L)%Q as -> by (field; split; assumption).
  assert (1 + G / L == (G + L) / L)%Q as -> by (field; assumption).
  field. split; assumption.
Qed.

Lemma gains_sum_nonneg (ds : list Q) :
  (0 <= sum (List.filter (fun d => Qgtb d 0) ds))%Q.
Proof.
  apply sum_nonneg, List.Forall_forall. intros x Hx.
  apply List.filter_In in Hx as [_ Hx]. apply Qgtb_lt in Hx. simpl. lra.
Qed.

Lemma losses_sum_nonneg (ds : list Q) :
  (0 <= sum (Qabs <$> List.filter (fun d => Qle_bool d 0) ds))%Q.
Proof.
  apply sum_nonneg, Forall_fmap, List.Forall_forall. intros x _. apply Qabs_nonneg.
Qed.

(** The gains add up to zero exactly when no delta is positive. *)
Lemma gains_zero_iff (ds : list Q) :
  (sum (List.filter (fun d => Qgtb d 0) ds) == 0)%Q <-> Forall (fun d => d <= 0)%Q ds.
Proof.
  induction ds as [|d ds IH]; [split; [constructor|reflexivity]|].
  cbn [List.filter]. pose proof (gains_sum_nonneg ds) as Hs.
  destruct (Qgtb d 0) eqn:E.
  - apply Qgtb_lt in E. rewrite sum_cons. split.
    + intros H0. lra.
    + intros Hall. apply Forall_cons in Hall as [Hd _]. lra.
  - apply Qgtb_le in E. rewrite IH. split.
    + intros Hall. by constructor.
    + intros Hall. by apply Forall_cons in Hall as [_ Hall].
Qed.

(** The losses add up to zero exactly when no delta is negative. *)
Lemma losses_zero_iff (ds : list Q) :
  (sum (Qabs <$> List.filter (fun d => Qle_bool d 0) ds) == 0)%Q <->
  Forall (fun d => 0 <= d)%Q ds.
Proof.
  induction ds as [|d ds IH]; [split; [constructor|reflexivity]|].
  cbn [List.filter]. pose proof (losses_sum_nonneg ds) as Hs.
  destruct (Qle_bool d 0) eqn:E.
  - apply Qle_bool_iff in E. rewrite fmap_cons, sum_cons.
    pose proof (Qabs_neg d E) as Habs. split.
    + intros H0. constructor; [lra|]. apply IH. lra.
    + intros Hall. apply Forall_cons in Hall as [Hd Hall].
      apply IH in Hall. lra.
  - assert (0 < d)%Q as Hd.
    { apply Qnot_le_lt. intros Hle. apply Qle_bool_iff in Hle. congruence. }
    rewrite IH. split.
    + intros Hall. constructor; [lra|done].
    + intros Hall. by apply Forall_cons in Hall as [_ Hall].
Qed.

(** Some loss is made exactly when some delta is negative. *)
Lemma losses_pos_iff (ds : list Q) :
  ~ (sum (Qabs <$> List.filter (fun d => Qle_bool d 0) ds) == 0)%Q <->
  Exists (fun d => d < 0)%Q ds.
Proof.
  rewrite losses_zero_iff. split.
  - induction ds as [|d ds IH]; intros Hno; [destruct Hno; constructor|].
    destruct (Qlt_le_dec d 0) as [Hd|Hd]; [by left|].
    right. apply IH. intros Hall. apply Hno. by constructor.
  - intros Hex Hall. apply List.Exists_exists in Hex as (d & Hin & Hd).
    rewrite List.Forall_forall in Hall. specialize (Hall d Hin). simpl in Hall. lra.
Qed.

(** X1: on a list longer than a period that is not zero, when some loss
    was made in the window, the RSI is [100 * G / (G + L)] for the sums
    [G] of the gains and [L] of the losses: the division of both by the
    period cancels. *)
Theorem compute_rsi_closed_form (prices : list Q) (P : Z) :
  (P < Z.of_nat (length prices))%Z -> P <> 0%Z ->
  ~ (total_loss prices P == 0)%Q ->
  exists v : Q,
    compute_rsi prices P = Ok (Some v) /\
    (v == 100 * total_gain prices P / (total_gain prices P + total_loss prices P))%Q.
Proof.
  intros Hlen HP HL. rewrite compute_rsi_value by done.
  destruct (Qeq_bool (average_loss prices P) 0) eqn:E.
  - apply Qeq_bool_iff, average_loss_zero_iff in E; [contradiction|done].
  - eexists. split; [reflexivity|]. by apply rsi_formula_closed.
Qed.

(** X2: on a list longer than a period that is not zero, the RSI is 100
    exactly when no delta of the window is negative (a series that does
    not move at all is among them), and 0 exactly when no delta is
    positive and one at least is negative. *)
Theorem compute_rsi_extremes (prices : list Q) (P : Z) :
  (P < Z.of_nat (length prices))%Z -> P <> 0%Z ->
  exists v : Q,
    compute_rsi prices P = Ok (Some v) /\
    ((v == 100)%Q <-> Forall (fun d => 0 <= d)%Q (window_deltas prices P)) /\
    ((v == 0)%Q <->
     Forall (fun d => d <= 0)%Q (window_deltas prices P) /\
     Exists (fun d => d < 0)%Q (window_deltas prices P)).
Proof.
  intros Hlen HP. rewrite compute_rsi_value by done.
  pose proof (losses_zero_iff (window_deltas prices P)) as Hzero.
  pose proof (losses_pos_iff (window_deltas prices P)) as Hpos.
  pose proof (gains_zero_iff (window_deltas prices P)) as Hgain.
  fold (loss_bucket prices P) in Hzero, Hpos. fold (total_loss prices P) in Hzero, Hpos.
  fold (gain_bucket prices P) in Hgain. fold (total_gain prices P) in Hgain.
  pose proof (total_gain_nonneg prices P) as HG.
  pose proof (total_loss_nonneg prices P) as HL.
  destruct (Qeq_bool (average_loss prices P) 0) eqn:E.
  - apply Qeq_bool_iff, average_loss_zero_iff in E; [|done].
    exists 100%Q. split; [reflexivity|]. split.
    + split; [intros _; by apply Hzero|reflexivity].
    + split; [intros H0; discriminate H0|].
      intros [_ Hex]. apply Hpos in Hex. contradiction.
  - apply Qeq_bool_neq in E. rewrite average_loss_zero_iff in E by done.
    eexists. split; [reflexivity|].
    rewrite (rsi_formula_closed prices P HP E).
    set (G := total_gain prices P) in *. set (L := total_loss prices P) in *.
    assert (0 < G + L)%Q as Hsum by lra.
    assert (100 * G / (G + L) * (G + L) == 100 * G)%Q as Hmul by (field; lra).
    split; split.
    + intros H100. rewrite H100 in Hmul. exfalso. lra.
    + intros Hall. apply Hzero in Hall. contradiction.
    + intros H0. rewrite H0 in Hmul.
      split; [apply Hgain; lra|by apply Hpos].
    + intros [Hall _]. apply Hgain in Hall. rewrite Hall. unfold Qdiv. ring.
Qed.

Lemma price_at_fmap (f : Q -> Q) (prices : list Q) (i : Z) :
  (0 <= i < Z.of_nat (length prices))%Z ->
  price_at (f <$> prices) i = f (price_at prices i).
Proof.
  intros Hi. unfold price_at. rewrite list_lookup_fmap.
  destruct (lookup_lt_is_Some_2 prices (Z.to_nat i)) as [x Hx]; [lia|].
  by rewrite Hx.
Qed.

(** Scaling every delta by [c > 0] scales both sums by [c]. *)
Lemma buckets_scaled (c : Q) (ds' ds : list Q) :
  (0 < c)%Q ->
  Forall2 (fun x y => x == c * y)%Q ds' ds ->
  (sum (List.filter (fun d => Qgtb d 0) ds') ==
   c * sum (List.filter (fun d => Qgtb d 0) ds))%Q /\
  (sum (Qabs <$> List.filter (fun d => Qle_bool d 0) ds') ==
   c * sum (Qabs <$> List.filter (fun d => Qle_bool d 0) ds))%Q.
Proof.
  intros Hc. induction 1 as [|x y ds' ds Hxy _ [IHg IHl]].
  - split; unfold sum; simpl; ring.
  - cbn [List.filter].
    assert (Qle_bool x 0 = Qle_bool y 0) as Hle.
    { apply eq_true_iff_eq. rewrite !Qle_bool_iff, Hxy. split; intros H.
      - apply Qnot_lt_le. intros Hy.
        assert (0 < c * y)%Q by (by apply Qmult_lt_0_compat). lra.
      - assert (0 <= c * - y)%Q by (apply Qmult_le_0_compat; lra). lra. }
    assert (Qgtb x 0 = Qgtb y 0) as Hgt by (unfold Qgtb; by rewrite Hle).
    rewrite Hgt, Hle. destruct (Qle_bool y 0) eqn:E.
    + assert (Qgtb y 0 = false) as -> by (unfold Qgtb; by rewrite E).
      split; [done|]. rewrite !fmap_cons, !sum_cons, IHl.
      apply Qle_bool_iff in E.
      assert (x <= 0)%Q as Hx.
      { rewrite Hxy. assert (0 <= c * - y)%Q by (apply Qmult_le_0_compat; lra). lra. }
      rewrite (Qabs_neg x Hx), (Qabs_neg y E), Hxy. ring.
    + assert (Qgtb y 0 = true) as -> by (unfold Qgtb; by rewrite E).
      split; [|done]. rewrite !sum_cons, IHg, Hxy. ring.
Qed.

Lemma window_deltas_affine (c k : Q) (prices : list Q) (P : Z) :
  (P < Z.of_nat (length prices))%Z ->
  Forall2 (fun x y => x == c * y)%Q
    (window_deltas ((fun p => c * p + k)%Q <$> prices) P) (window_deltas prices P).
Proof.
  intros Hlen. unfold window_deltas. apply Forall2_fmap, Forall_Forall2_diag, Forall_seqZ.
  intros i Hi. unfold delta_at. rewrite !price_at_fmap by lia. ring.
Qed.

(** X3: the RSI does not change when every price is multiplied by the
    same positive number and shifted by the same amount: the unit of
    the prices and a common offset do not matter. *)
Theorem compute_rsi_affine_invariant (prices : list Q) (P : Z) (c k : Q) :
  (0 < c)%Q ->
  same_rsi (compute_rsi ((fun p => c * p + k)%Q <$> prices) P) (compute_rsi prices P).
Proof.
  intros Hc.
  destruct (Z_lt_le_dec P (Z.of_nat (length prices))) as [Hlen|Hlen].
  - destruct (decide (P = 0%Z)) as [->|HP].
    + rewrite !compute_rsi_zero_period; [done|lia|rewrite length_fmap; lia].
    + assert (P < Z.of_nat (length ((fun p => c * p + k)%Q <$> prices)))%Z as Hlen'
        by (by rewrite length_fmap).
      destruct (buckets_scaled c _ _ Hc (window_deltas_affine c k prices P Hlen))
        as [Hg Hl].
      fold (gain_bucket ((fun p => c * p + k)%Q <$> prices) P) in Hg.
      fold (loss_bucket ((fun p => c * p + k)%Q <$> prices) P) in Hl.
      fold (gain_bucket prices P) in Hg. fold (loss_bucket prices P) in Hl.
      fold (total_gain ((fun p => c * p + k)%Q <$> prices) P) in Hg.
      fold (total_loss ((fun p => c * p + k)%Q <$> prices) P) in Hl.
      fold (total_gain prices P) in Hg. fold (total_loss prices P) in Hl.
      rewrite !compute_rsi_value by done. unfold same_rsi.
      pose proof (total_gain_nonneg prices P) as HG.
      pose proof (total_loss_nonneg prices P) as HL.
      destruct (Qeq_bool (average_loss prices P) 0) eqn:E.
      * apply Qeq_bool_iff, average_loss_zero_iff in E; [|done].
        assert (Qeq_bool (average_loss ((fun p => c * p + k)%Q <$> prices) P) 0 = true)
          as ->; [|reflexivity].
        apply Qeq_bool_iff, average_loss_zero_iff; [done|]. rewrite Hl, E. ring.
      * apply Qeq_bool_neq in E. rewrite average_loss_zero_iff in E by done.
        assert (~ (total_loss ((fun p => c * p + k)%Q <$> prices) P == 0)%Q) as E'.
        { rewrite Hl. intros H0.
          assert (0 < c * total_loss prices P)%Q
            by (apply Qmult_lt_0_compat; lra). lra. }
        assert (Qeq_bool (average_loss ((fun p => c * p + k)%Q <$> prices) P) 0 = false)
          as ->.
        { apply not_true_iff_false. rewrite Qeq_bool_iff, average_loss_zero_iff by done.
          exact E'. }
        rewrite (rsi_formula_closed _ P HP E'), (rsi_formula_closed _ P HP E), Hg, Hl.
        assert (0 < c * (total_gain prices P + total_loss prices P))%Q as Hpos
          by (apply Qmult_lt_0_compat; lra).
        field. split; [lra|]. intros H0.
        assert (c * (total_gain prices P + total_loss prices P) == 0)%Q as H1
          by (rewrite <- H0; ring).
        rewrite H1 in Hpos. by apply Qlt_irrefl in Hpos.
  - rewrite !compute_rsi_short; [done|done|by rewrite length_fmap].
Qed.

(** ** The stored RSI *)

Lemma round_half_even_near (x : Q) :
  (inject_Z (round_half_even x) - (1 # 2) <= x <= inject_Z (round_half_even x) + (1 # 2))%Q.
Proof.
  unfold round_half_even.
  pose proof (Qfloor_le x) as Hlo. pose proof (Qlt_floor x) as Hhi.
  rewrite inject_Z_plus in Hhi. change (inject_Z 1) with 1%Q in Hhi.
  destruct (Qcompare_spec (x - inject_Z (Qfloor x)) (1 # 2)) as [He|Hl|Hg].
  - destruct (Z.even (Qfloor x)).
    + lra.
    + rewrite inject_Z_plus. change (inject_Z 1) with 1%Q. lra.
  - lra.
  - rewrite inject_Z_plus. change (inject_Z 1) with 1%Q. lra.
Qed.

(** From a bound on an integer read as a rational to the bound on the
    integer. *)
Lemma inject_Z_le_half (n m : Z) :
  (inject_Z n <= inject_Z m + (1 # 2))%Q -> (n <= m)%Z.
Proof.
  intros H. destruct (Z_lt_le_dec m n) as [Hlt|Hle]; [|done]. exfalso.
  assert (inject_Z m + 1 <= inject_Z n)%Q as H1.
  { change 1%Q with (inject_Z 1). rewrite <- inject_Z_plus, <- Zle_Qle. lia. }
  lra.
Qed.

Lemma inject_Z_ge_half (n m : Z) :
  (inject_Z m - (1 # 2) <= inject_Z n)%Q -> (m <= n)%Z.
Proof.
  intros H. destruct (Z_lt_le_dec n m) as [Hlt|Hle]; [|done]. exfalso.
  assert (inject_Z n + 1 <= inject_Z m)%Q as H1.
  { change 1%Q with (inject_Z 1). rewrite <- inject_Z_plus, <- Zle_Qle. lia. }
  lra.
Qed.

(** Rounding keeps a value at or above a whole number of hundredths
    there, and likewise below. *)
Lemma round2_ge (x : Q) (m : Z) :
  (inject_Z m / 100 <= x)%Q -> (inject_Z m / 100 <= round2 x)%Q.
Proof.
  intros Hx. unfold round2.
  destruct (round_half_even_near (x * 100)) as [_ Hhi].
  assert (m <= round_half_even (x * 100))%Z as Hm.
  { apply inject_Z_ge_half.
    assert (inject_Z m == inject_Z m / 100 * 100)%Q as -> by field. lra. }
  rewrite Zle_Qle in Hm. apply Qle_shift_div_l; [reflexivity|].
  assert (inject_Z m / 100 * 100 == inject_Z m)%Q as -> by field. exact Hm.
Qed.

Lemma round2_le (x : Q) (m : Z) :
  (x <= inject_Z m / 100)%Q -> (round2 x <= inject_Z m / 100)%Q.
Proof.
  intros Hx. unfold round2.
  destruct (round_half_even_near (x * 100)) as [Hlo _].
  assert (round_half_even (x * 100) <= m)%Z as Hm.
  { apply inject_Z_le_half.
    assert (inject_Z m == inject_Z m / 100 * 100)%Q as -> by field. lra. }
  rewrite Zle_Qle in Hm. apply Qle_shift_div_r; [reflexivity|].
  assert (inject_Z m / 100 * 100 == inject_Z m)%Q as -> by field. exact Hm.
Qed.

Lemma round2_error (x : Q) : (Qabs (round2 x - x) <= 1 # 200)%Q.
Proof.
  unfold round2. destruct (round_half_even_near (x * 100)) as [Hlo Hhi].
  apply Qabs_Qle_condition.
  set (n := inject_Z (round_half_even (x * 100))) in *.
  assert (n / 100 == n * (1 # 100))%Q as -> by field.
  split; lra.
Qed.

Lemma rsi14_bounds (prices : list Q) (v : Q) :
  rsi14 prices = Some v -> (0 <= v <= 100)%Q.
Proof.
  unfold rsi14. destruct (Z.leb_spec (Z.of_nat (length prices)) 14) as [?|_]; [done|].
  intros [= <-]. destruct (Qeq_bool (average_loss prices 14) 0) eqn:E; [lra|].
  apply Qeq_bool_neq in E. pose proof (average_loss_nonneg prices 14) as Hl.
  assert (0 < average_loss prices 14)%Q as Hpos.
  { apply Qle_lteq in Hl as [Hl|Hl]; [done|]. by symmetry in Hl. }
  apply rsi_value_bounds, Qdiv_nonneg; [apply average_gain_nonneg|done].
Qed.

Lemma round2_between (x : Q) (a b : Z) (lo hi : Q) :
  (lo == inject_Z a / 100)%Q -> (hi == inject_Z b / 100)%Q ->
  (lo <= x <= hi)%Q -> (lo <= round2 x <= hi)%Q.
Proof.
  intros Hlo Hhi [Ha Hb]. rewrite Hlo, Hhi in *.
  split; [by apply round2_ge|by apply round2_le].
Qed.

Lemma expected_row_consistent (net : network) (k : nat) (c : coin) :
  consistent (expected_row net k c).
Proof.
  unfold consistent, expected_row. cbn [row_rsi row_signal].
  destruct (rsi14 (fetch_prices net k (coin_id c) 15)) as [v|] eqn:E; [|done].
  apply rsi14_bounds in E as [Hlo Hhi]. cbn [fmap option_fmap option_map]. split.
  - apply (round2_between v 0 10000); [reflexivity|reflexivity|done].
  - unfold signal_of, agrees. destruct (Qltb v 30) eqn:E1.
    + apply Qltb_lt in E1.
      apply (round2_between v 0 3000 0 30); [reflexivity|reflexivity|]. lra.
    + apply Qltb_le in E1. destruct (Qgtb v 70) eqn:E2.
      * apply Qgtb_lt in E2.
        apply (round2_between v 7000 10000 70 100); [reflexivity|reflexivity|]. lra.
      * apply Qgtb_le in E2.
        apply (round2_between v 3000 7000); [reflexivity|reflexivity|done].
Qed.

Lemma expected_rows_consistent (net : network) (k : nat) (coins : list coin) :
  Forall consistent (expected_rows net k coins).
Proof.
  revert k. induction coins as [|c coins IH]; intros k; [constructor|].
  cbn [expected_rows]. constructor; [apply expected_row_consistent|apply IH].
Qed.

(** X4: every row the trending loop builds is consistent: a row
    without RSI is "neutral"; a stored RSI lies in [0, 100], is at most
    30 beside "buy", at least 70 beside "sell" and between them beside
    "neutral"; and it is within 0.005 of the RSI that was computed. *)
Theorem stored_rsi_consistent (net : CryptoTrending.network) (k : nat) (coins : list coin) :
  exists rows : list row,
    main_loop net k coins = Ok rows /\
    Forall consistent rows /\
    forall (i : nat) (c : coin),
      coins !! i = Some c ->
      exists (rsi : option Q) (r : row),
        compute_rsi (fetch_prices net (k + i) (coin_id c) 15) 14 = Ok rsi /\
        rows !! i = Some r /\
        match rsi, row_rsi r with
        | Some v, Some q => (Qabs (q - v) <= 1 # 200)%Q
        | None, None => True
        | _, _ => False
        end.
Proof.
  exists (expected_rows net k coins). split; [apply main_loop_rows|].
  split; [apply expected_rows_consistent|]. intros i c Hc.
  exists (rsi14 (fetch_prices net (k + i) (coin_id c) 15)), (expected_row net (k + i) c).
  split; [apply compute_rsi_14|]. split; [by rewrite lookup_expected_rows, Hc|].
  unfold expected_row. cbn [row_rsi].
  destruct (rsi14 (fetch_prices net (k + i) (coin_id c) 15)) as [v|]; [|done].
  apply round2_error.
Qed.

(** ** [fetch_prices], [analyze_coin] and [main] of the trending tool *)

Lemma length_fetch_prices (net : network) (k : nat) (id : option string) (days : Z) :
  length (fetch_prices net k id days) = chart_size (market_chart net k (str id) days).
Proof.
  unfold fetch_prices, chart_size.
  destruct (market_chart net k (str id) days); [done|]. by rewrite length_fmap.
Qed.

(** X5: [analyze_coin] asks for the 15-day chart of the coin's id and
    never raises.  When the request fails, the body has no prices, or
    it holds at most 14 points, the result is the coin's symbol with
    NaN and "neutral"; with 15 points or more it is the symbol with a
    number in [0, 100] and the signal of that number. *)
Theorem analyze_coin_by_chart_size (net : CryptoTrending.network) (k : nat) (c : coin) :
  let n := chart_size (CryptoTrending.market_chart net k (str (coin_id c)) 15) in
  ((n <= 14)%nat -> analyze_coin net k c = Ok (coin_symbol c, NaN, Neutral)) /\
  ((14 < n)%nat ->
   exists v : Q,
     analyze_coin net k c = Ok (coin_symbol c, Fin v, signal_of (Some v)) /\
     (0 <= v <= 100)%Q).
Proof.
  intros n. subst n. rewrite <- length_fetch_prices. rewrite analyze_coin_rsi14.
  cbv zeta. split; intros Hn.
  - unfold rsi14.
    destruct (Z.leb_spec (Z.of_nat (length (fetch_prices net k (coin_id c) 15))) 14)
      as [_|?]; [done|lia].
  - destruct (rsi14 (fetch_prices net k (coin_id c) 15)) as [v|] eqn:E.
    + exists v. split; [done|]. by apply rsi14_bounds in E.
    + unfold rsi14 in E.
      destruct (Z.leb_spec (Z.of_nat (length (fetch_prices net k (coin_id c) 15))) 14)
        as [?|_]; [lia|done].
Qed.

Lemma expected_rows_agree (net net' : network) (k : nat) (coins : list coin) :
  (forall (i : nat) (id : string),
     (i < length coins)%nat ->
     market_chart net' (k + i) id 15 = market_chart net (k + i) id 15) ->
  expected_rows net' k coins = expected_rows net k coins.
Proof.
  revert k. induction coins as [|c coins IH]; intros k Hagree; [done|].
  cbn [expected_rows]. f_equal.
  - unfold expected_row, fetch_prices.
    specialize (Hagree 0%nat (str (coin_id c))). rewrite Nat.add_0_r in Hagree.
    rewrite Hagree; [done|simpl; lia].
  - apply IH. intros i id Hi. specialize (Hagree (S i) id).
    replace (S k + i)%nat with (k + S i)%nat by lia. apply Hagree. simpl. lia.
Qed.

(** X6: a run of the trending tool makes at most seven chart requests,
    each for 15 days: two networks that give the same trending answer
    and the same answers to the first seven 15-day chart requests give
    the same outcome of [main], whatever else they would answer. *)
Theorem main_reads_seven_charts
    (a : CryptoTrending.args) (net net' : CryptoTrending.network)
    (fs : csv_files) (dbs : databases) :
  trending_search net' = trending_search net ->
  (forall (k : nat) (id : string),
     (k < 7)%nat ->
     CryptoTrending.market_chart net' k id 15 = CryptoTrending.market_chart net k id 15) ->
  CryptoTrending.main a net' fs dbs = CryptoTrending.main a net fs dbs.
Proof.
  intros Htrend Hcharts.
  assert (fetch_trending net' = fetch_trending net) as Hfetch
    by (unfold fetch_trending; by rewrite Htrend).
  destruct (fetch_trending net) as [coins|e] eqn:E.
  - rewrite (main_outcome a net fs dbs coins E), (main_outcome a net' fs dbs coins Hfetch).
    cbv zeta. rewrite (expected_rows_agree net net' 0 (take 7 coins)); [done|].
    intros i id Hi. apply Hcharts. rewrite length_take in Hi. simpl. lia.
  - unfold CryptoTrending.main. by rewrite Hfetch, E.
Qed.

(** X7: the outcome of the trending tool's [main].  A failed trending
    search raises [RequestException].  When the search answers, every
    chart request fails in transport or status or answers a body of
    the documented shape, and the CSV path and the database path
    differ, [main] returns at most seven rows; with a CSV path it
    leaves the header and the records of exactly the returned rows in
    that file, with a database path exactly those records in the
    table; and without an option (or with an empty path) the files,
    respectively the databases, are left as they were. *)
Theorem main_outcome_written
    (a : CryptoTrending.args) (net : CryptoTrending.network)
    (fs : csv_files) (dbs : databases) :
  (trending_search net = Failed ->
   CryptoTrending.main a net fs dbs = Raise RequestException) /\
  (forall data : option (list (option coin)),
     trending_search net = Body data ->
     (forall pc pd : string,
        given (arg_csv a) = Some pc -> given (arg_db a) = Some pd -> pc <> pd) ->
     exists (rows : list row) (fs' : csv_files) (dbs' : databases),
       CryptoTrending.main a net fs dbs = Ok (rows, fs', dbs') /\
       length rows = Nat.min 7 (length (default [] data)) /\
       (forall p : string,
          given (arg_csv a) = Some p ->
          fs' !! p = Some (CryptoTrending.header :: (cells <$> rows))) /\
       (given (arg_csv a) = None -> fs' = fs) /\
       (forall p : string,
          given (arg_db a) = Some p ->
          table p "trending" dbs' = Some (cells <$> rows)) /\
       (given (arg_db a) = None -> dbs' = dbs)).
Proof.
  split.
  - intros Hfail. unfold CryptoTrending.main, fetch_trending. by rewrite Hfail.
  - intros data Hbody _.
    assert (fetch_trending net = Ok (default (Coin None None None) <$> default [] data))
      as Hfetch by (unfold fetch_trending; by rewrite Hbody).
    rewrite (main_outcome a net fs dbs _ Hfetch). cbv zeta.
    eexists _, _, _. split; [reflexivity|].
    rewrite length_expected_rows, length_take, length_fmap. split; [done|].
    split; [|split; [|split]].
    + intros p Hp. rewrite Hp, trending_save_csv. apply lookup_insert_eq.
    + intros Hnone. by rewrite Hnone.
    + intros p Hp. rewrite Hp, trending_save_db. unfold table.
      rewrite lookup_insert_eq. cbn [mbind option_bind]. apply lookup_insert_eq.
    + intros Hnone. by rewrite Hnone.
Qed.

(** X8: the sinks of the trending tool touch their target alone:
    [save_csv] leaves every other file as it was, [save_db] every other
    database and, in its own database, every table but "trending". *)
Theorem trending_sinks_frame (rows : list row) (path : string) :
  (forall (fs : csv_files) (p : string),
     p <> path -> CryptoTrending.save_csv rows path fs !! p = fs !! p) /\
  (forall (dbs : databases) (p : string),
     p <> path -> CryptoTrending.save_db rows path dbs !! p = dbs !! p) /\
  (forall (dbs : databases) (t : string),
     t <> "trending" ->
     table path t (CryptoTrending.save_db rows path dbs) = table path t dbs).
Proof.
  split; [|split].
  - intros fs p Hp. rewrite trending_save_csv. by apply lookup_insert_ne.
  - intros dbs p Hp. rewrite trending_save_db. by apply lookup_insert_ne.
  - intros dbs t Ht. rewrite trending_save_db. unfold table, connect.
    rewrite lookup_insert_eq. cbn [mbind option_bind].
    rewrite lookup_insert_ne by done.
    destruct (dbs !! path) as [db|]; [done|]. apply lookup_empty.
Qed.

(** ** [fetch_price_history]: what it keeps, what it ignores, how it fails *)

Import BlockassetData.

#[global] Instance str_le_antisymm : AntiSymm (=) str_le.
Proof. intros a b Hab Hba. by apply String.leb_antisym. Qed.

Lemma str_lt_irrefl (a : string) : ~ str_lt a a.
Proof. rewrite str_lt_lts. intros H. by apply String_as_OT.lt_not_eq in H. Qed.

Lemma StronglySorted_lt_le (l : list string) :
  StronglySorted str_lt l -> StronglySorted str_le l.
Proof.
  induction 1 as [|a l _ IH Hall]; constructor; [done|].
  eapply Forall_impl; [exact Hall|]. intros b Hb. apply str_le_lt_eq. by left.
Qed.

Lemma StronglySorted_lt_NoDup (l : list string) :
  StronglySorted str_lt l -> NoDup l.
Proof.
  induction 1 as [|a l _ IH Hall]; constructor; [|done].
  intros Ha. rewrite Forall_forall in Hall. by apply (str_lt_irrefl a), Hall.
Qed.

(** The rows are read under the sorted keys of the dict, each the last
    sample of its key. *)
Lemma fetch_price_history_rows
    (net : BlockassetData.network) (days : Z) (data : chart) :
  BlockassetData.market_chart net days = Body data ->
  datable (default [] data) ->
  exists rows : list (Z * Q),
    fetch_price_history net days = Ok rows /\
    Forall2 (fun d r => last_seen d (default [] data) = Some r)
      (sorted (keys (bucketed (default [] data) ∅))) rows.
Proof.
  intros Hchart Hok. unfold fetch_price_history. rewrite Hchart.
  rewrite per_date_loop_bucketed by done. cbn [mbind result_bind].
  set (m := bucketed (default [] data) ∅).
  destruct (mapM_dict_getitem m (sorted (keys m))) as (rows & Hrows & Hall).
  { apply Forall_forall. intros d Hd. by apply elem_of_keys, elem_of_sorted. }
  exists rows. split; [done|].
  eapply Forall2_impl; [exact Hall|]. intros d r Hr. simpl in Hr.
  unfold m in Hr. by rewrite bucketed_empty_lookup in Hr.
Qed.

(** A run that returns was given a chart whose samples can be dated. *)
Lemma fetch_price_history_ok_inv
    (net : BlockassetData.network) (days : Z) (rows : list (Z * Q)) :
  fetch_price_history net days = Ok rows ->
  exists data : chart,
    BlockassetData.market_chart net days = Body data /\ datable (default [] data).
Proof.
  intros Hrows. destruct (BlockassetData.market_chart net days) as [|data] eqn:E.
  - unfold fetch_price_history in Hrows. by rewrite E in Hrows.
  - exists data. split; [done|].
    destruct (decide (Forall (fun s : Z * Q => in_range s.1 = true) (default [] data)))
      as [Hok|Hno]; [done|].
    unfold fetch_price_history in Hrows. rewrite E in Hrows.
    destruct (per_date_loop_undatable (default [] data) ∅ Hno) as [e He].
    by rewrite He in Hrows.
Qed.

Lemma sorted_keys_dates (samples : list (Z * Q)) (d : string) :
  d ∈ sorted (keys (bucketed samples ∅)) <-> d ∈ dates samples.
Proof.
  rewrite elem_of_sorted, elem_of_keys, bucketed_empty_lookup.
  apply last_seen_is_Some.
Qed.

Lemma datable_elem_of (samples : list (Z * Q)) (s : Z * Q) :
  datable samples -> s ∈ samples -> in_range s.1 = true.
Proof. unfold datable. rewrite Forall_forall. auto. Qed.

Lemma NoDup_dates_inj (l : list (Z * Q)) (r r' : Z * Q) :
  NoDup (dates l) -> r ∈ l -> r' ∈ l -> date_of r = date_of r' -> r = r'.
Proof.
  unfold dates. induction l as [|x l IH]; intros Hnd Hr Hr' Hd.
  - by apply elem_of_nil in Hr.
  - rewrite fmap_cons in Hnd. apply NoDup_cons in Hnd as [Hx Hnd].
    apply elem_of_cons in Hr as [->|Hr]; apply elem_of_cons in Hr' as [->|Hr'].
    + done.
    + destruct Hx. rewrite Hd. by apply list_elem_of_fmap_2.
    + destruct Hx. rewrite <- Hd. by apply list_elem_of_fmap_2.
    + by apply IH.
Qed.

(** X9: [fetch_price_history] invents nothing and loses no date: every
    row it returns is one of the samples, so there are at most as many
    rows as samples and the rows can be dated again; when the samples
    are all of different dates the rows are the samples, reordered; and
    a chart without prices, or with an empty list, gives no row. *)
Theorem fetch_price_history_selects
    (net : BlockassetData.network) (days : Z) (data : chart) :
  BlockassetData.market_chart net days = Body data ->
  datable (default [] data) ->
  exists rows : list (Z * Q),
    fetch_price_history net days = Ok rows /\
    (forall r : Z * Q, r ∈ rows -> r ∈ default [] data) /\
    (length rows <= length (default [] data))%nat /\
    datable rows /\
    (NoDup (dates (default [] data)) -> rows ≡ₚ default [] data) /\
    (default [] data = [] -> rows = []).
Proof.
  intros Hchart Hok.
  destruct (fetch_price_history_rows net days data Hchart Hok) as (rows & Hrows & Hall).
  set (samples := default [] data) in *.
  destruct (rows_of_keys _ _ _ Hall) as [Hdates Hlast].
  assert (forall r, r ∈ rows -> r ∈ samples) as Hsub.
  { intros r Hr. by destruct (last_seen_date _ _ _ (Hlast r Hr)). }
  assert (NoDup (dates rows)) as Hnd.
  { rewrite Hdates. unfold sorted. rewrite merge_sort_Permutation.
    apply NoDup_fst_map_to_list. }
  assert (forall d, d ∈ dates rows <-> d ∈ dates samples) as Hmem.
  { intros d. rewrite Hdates. apply sorted_keys_dates. }
  exists rows. split; [done|]. split; [done|]. split; [|split; [|split]].
  - rewrite <- (length_fmap date_of rows), <- (length_fmap date_of samples).
    apply submseteq_length, NoDup_submseteq; [done|]. intros d. apply Hmem.
  - apply Forall_forall. intros r Hr. by apply (datable_elem_of samples), Hsub.
  - intros Hnd'. apply NoDup_Permutation.
    + by apply (NoDup_fmap_1 date_of).
    + by apply (NoDup_fmap_1 date_of).
    + intros r. split; [apply Hsub|]. intros Hr.
      assert (date_of r ∈ dates rows) as Hd
        by (apply Hmem; by apply list_elem_of_fmap_2).
      apply list_elem_of_fmap in Hd as (r' & Hdate & Hr').
      destruct (last_seen_date _ _ _ (Hlast r' Hr')) as [_ Hin].
      assert (r = r') as ->; [|done].
      by apply (NoDup_dates_inj samples).
  - intros Hnil. rewrite Hnil in Hmem. destruct rows as [|r rows]; [done|].
    exfalso. apply (elem_of_nil (date_of r)), Hmem. left.
Qed.

Lemma last_seen_unique (l : list (Z * Q)) (r : Z * Q) :
  NoDup (dates l) -> r ∈ l -> last_seen (date_of r) l = Some r.
Proof.
  intros Hnd Hr.
  destruct (proj2 (last_seen_is_Some (date_of r) l)) as [s Hs].
  { by apply list_elem_of_fmap_2. }
  destruct (last_seen_date _ _ _ Hs) as [Hd Hin].
  by rewrite Hs, (NoDup_dates_inj l s r Hnd Hin Hr Hd).
Qed.

(** What a successful run returns: samples that can be dated, strictly
    ascending by date. *)
Lemma fetch_price_history_ok_series
    (net : BlockassetData.network) (days : Z) (rows : list (Z * Q)) :
  fetch_price_history net days = Ok rows ->
  datable rows /\ StronglySorted str_lt (dates rows).
Proof.
  intros Hrows.
  destruct (fetch_price_history_ok_inv net days rows Hrows) as (data & Hchart & Hok).
  destruct (fetch_price_history_rows net days data Hchart Hok) as (rows' & Hrows' & Hall).
  assert (rows' = rows) as -> by congruence.
  destruct (rows_of_keys _ _ _ Hall) as [Hdates Hlast]. split.
  - apply Forall_forall. intros r Hr. apply (datable_elem_of (default [] data)); [done|].
    by destruct (last_seen_date _ _ _ (Hlast r Hr)).
  - rewrite Hdates. apply sorted_strictly, NoDup_fst_map_to_list.
Qed.

Lemma fetch_price_history_series_fixed
    (net : BlockassetData.network) (days : Z) (l : list (Z * Q)) :
  BlockassetData.market_chart net days = Body (Some l) ->
  datable l -> StronglySorted str_lt (dates l) ->
  fetch_price_history net days = Ok l.
Proof.
  intros Hchart Hok Hsorted.
  destruct (fetch_price_history_rows net days (Some l) Hchart Hok)
    as (rows & Hrows & Hall).
  change (default [] (Some l)) with l in Hall. rewrite Hrows. f_equal.
  pose proof (StronglySorted_lt_NoDup _ Hsorted) as Hnd.
  assert (sorted (keys (bucketed l ∅)) = dates l) as Hkeys.
  { apply (StronglySorted_unique str_le).
    - apply StronglySorted_merge_sort; apply _.
    - by apply StronglySorted_lt_le.
    - apply NoDup_Permutation; [|done|apply sorted_keys_dates].
      unfold sorted. rewrite merge_sort_Permutation. apply NoDup_fst_map_to_list. }
  rewrite Hkeys in Hall.
  eapply Forall2_unique; [exact Hall| |].
  - unfold dates. apply Forall2_fmap_l, Forall_Forall2_diag, Forall_forall.
    intros r Hr. by apply last_seen_unique.
  - intros d r1 r2 H1 H2. congruence.
Qed.

(** X10: de-duplication is idempotent.  A chart that already is a daily
    series (samples that can be dated, strictly ascending by date) is
    returned as it is; and the rows one run returns, given to another
    run as its chart, are returned unchanged. *)
Theorem fetch_price_history_idempotent
    (net' : BlockassetData.network) (days' : Z) (rows : list (Z * Q)) :
  BlockassetData.market_chart net' days' = Body (Some rows) ->
  (datable rows -> StronglySorted str_lt (dates rows) ->
   fetch_price_history net' days' = Ok rows) /\
  (forall (net : BlockassetData.network) (days : Z),
     fetch_price_history net days = Ok rows ->
     fetch_price_history net' days' = Ok rows).
Proof.
  intros Hchart. split.
  - by apply fetch_price_history_series_fixed.
  - intros net days Hrows.
    destruct (fetch_price_history_ok_series net days rows Hrows) as [Hok Hsorted].
    by apply fetch_price_history_series_fixed.
Qed.

Lemma bucketed_ext (s1 s2 : list (Z * Q)) :
  (forall d : string, last_seen d s1 = last_seen d s2) ->
  bucketed s1 ∅ = bucketed s2 ∅.
Proof. intros Hsame. apply map_eq. intros d. by rewrite !bucketed_empty_lookup. Qed.

(** The result is a function of the last sample of each date. *)
Lemma fetch_price_history_ext
    (net net' : BlockassetData.network) (days days' : Z) (s1 s2 : list (Z * Q)) :
  BlockassetData.market_chart net days = Body (Some s1) ->
  BlockassetData.market_chart net' days' = Body (Some s2) ->
  datable s1 -> datable s2 ->
  (forall d : string, last_seen d s1 = last_seen d s2) ->
  fetch_price_history net days = fetch_price_history net' days'.
Proof.
  intros H1 H2 Hok1 Hok2 Hsame. unfold fetch_price_history. rewrite H1, H2.
  change (default [] (Some s1)) with s1. change (default [] (Some s2)) with s2.
  rewrite !per_date_loop_bucketed by done.
  by rewrite (bucketed_ext s1 s2 Hsame).
Qed.

Lemma datable_app (l1 l2 : list (Z * Q)) :
  datable (l1 ++ l2) <-> datable l1 /\ datable l2.
Proof. apply Forall_app. Qed.

(** X11: only the last sample of a date counts, and the order of
    samples of different dates does not.  Dropping a sample that a
    later sample of the same date overwrites, or swapping two
    neighbours of different dates, leaves the result as it was. *)
Theorem fetch_price_history_last_only
    (net net' : BlockassetData.network) (days days' : Z)
    (l1 l2 : list (Z * Q)) (x y : Z * Q) :
  BlockassetData.market_chart net days = Body (Some (l1 ++ x :: y :: l2)) ->
  datable (l1 ++ x :: y :: l2) ->
  (date_of x ∈ dates (y :: l2) ->
   BlockassetData.market_chart net' days' = Body (Some (l1 ++ y :: l2)) ->
   fetch_price_history net' days' = fetch_price_history net days) /\
  (date_of x <> date_of y ->
   BlockassetData.market_chart net' days' = Body (Some (l1 ++ y :: x :: l2)) ->
   fetch_price_history net' days' = fetch_price_history net days).
Proof.
  intros Hchart Hok.
  apply datable_app in Hok as [Hok1 Hok2].
  apply Forall_cons in Hok2 as [Hx Hok2]. apply Forall_cons in Hok2 as [Hy Hok2].
  split.
  - intros Hover Hchart'.
    apply (fetch_price_history_ext net' net days' days _ _ Hchart' Hchart).
    { apply datable_app. split; [done|]. by constructor. }
    { apply datable_app. split; [done|]. constructor; [done|]. by constructor. }
    intros d. unfold last_seen, samples_of. rewrite !filter_app, !last_app.
    rewrite (filter_cons _ x). destruct (decide (date_of x = d)) as [Hd|Hd]; [|done].
    rewrite last_cons.
    destruct (last (filter (fun s => date_of s = d) (y :: l2))) eqn:E; [done|].
    exfalso. apply last_None in E.
    apply list_elem_of_fmap in Hover as (s & Hs & Hin).
    assert (s ∈ filter (fun s => date_of s = d) (y :: l2)) as Hin'
      by (apply list_elem_of_filter; split; [congruence|done]).
    rewrite E in Hin'. by apply elem_of_nil in Hin'.
  - intros Hne Hchart'.
    apply (fetch_price_history_ext net' net days' days _ _ Hchart' Hchart).
    { apply datable_app. split; [done|]. constructor; [done|]. by constructor. }
    { apply datable_app. split; [done|]. constructor; [done|]. by constructor. }
    intros d. unfold last_seen, samples_of. rewrite !filter_app. do 2 f_equal.
    rewrite !filter_cons.
    destruct (decide (date_of x = d)) as [Hdx|Hdx];
      destruct (decide (date_of y = d)) as [Hdy|Hdy]; try done.
    congruence.
Qed.

Lemma date_error_kind (ts : Z) : date_exn (date_error ts).
Proof.
  unfold date_exn, date_error.
  destruct (_ || _); [by right; right|].
  destruct (civil (day_number ts)) as [[y m] d].
  destruct (_ || _); [by right; left|by left].
Qed.

(** The conversion of a timestamp outside the years of [datetime]
    raises, with one of three exceptions. *)
Lemma utc_date_undatable (ts : Z) :
  in_range ts = false ->
  exists e : exn, utc_date ts = Raise e /\ date_exn e.
Proof.
  intros Hts. exists (date_error ts). unfold utc_date. rewrite Hts.
  split; [done|apply date_error_kind].
Qed.

(** X12: how [fetch_price_history] fails.  A failed chart request
    raises [RequestException].  When a sample's timestamp falls outside
    the years of [datetime], the first such sample makes the fetch raise
    what its conversion raises, which is [ValueError], [OSError] or
    [OverflowError] according to how far out the timestamp lies; this
    wherever the sample stands and even when a later sample of its date
    would overwrite it: no partial series is returned. *)
Theorem fetch_price_history_failures (net : BlockassetData.network) (days : Z) :
  (BlockassetData.market_chart net days = Failed ->
   fetch_price_history net days = Raise RequestException) /\
  (forall (l1 l2 : list (Z * Q)) (x : Z * Q),
     BlockassetData.market_chart net days = Body (Some (l1 ++ x :: l2)) ->
     datable l1 ->
     in_range x.1 = false ->
     exists e : exn,
       utc_date x.1 = Raise e /\
       fetch_price_history net days = Raise e /\
       date_exn e).
Proof.
  split.
  - intros Hfail. unfold fetch_price_history. by rewrite Hfail.
  - intros l1 l2 x Hchart Hok Hx. exists (date_error x.1).
    split; [unfold utc_date; by rewrite Hx|].
    split; [by apply (fetch_price_history_undatable net days l1 l2 x)|].
    apply date_error_kind.
Qed.

(** ** The price tool's sinks and [main] *)

Lemma mapM_db_row_first_undatable (l1 l2 : list (Z * Q)) (x : Z * Q) :
  datable l1 -> in_range x.1 = false ->
  mapM db_row (l1 ++ x :: l2) = Raise (date_error x.1).
Proof.
  intros Hok Hx. induction Hok as [|[ts price] l1 Hs _ IH].
  - destruct x as [ts price]. cbn [app]. rewrite mapM_result_cons.
    replace (db_row (ts, price))
      with (date ← utc_date ts; Ok [VStr date; VNum price]) by done.
    unfold utc_date. simpl in Hx. by rewrite Hx.
  - cbn [app]. rewrite mapM_result_cons.
    replace (db_row (ts, price))
      with (date ← utc_date ts; Ok [VStr date; VNum price]) by done.
    unfold utc_date at 1. simpl in Hs. rewrite Hs. cbn [mbind result_bind].
    by rewrite IH.
Qed.

(** X13: the sinks of the price tool succeed exactly when every row
    can be dated, and then touch their target alone.  When a row's
    timestamp falls outside the years of [datetime], both sinks raise
    what the conversion of the first such row raises, [ValueError],
    [OSError] or [OverflowError]; what the target holds after a failed
    write is outside the model.  Otherwise [save_csv] leaves every
    other file as it was, and [save_db] every other database and, in
    its own, every table but "prices". *)
Theorem prices_sinks_frame (rows : list (Z * Q)) (path : string) :
  (forall (l1 l2 : list (Z * Q)) (x : Z * Q),
     rows = l1 ++ x :: l2 ->
     datable l1 ->
     in_range x.1 = false ->
     forall (fs : csv_files) (dbs : databases),
     exists e : exn,
       utc_date x.1 = Raise e /\
       BlockassetData.save_csv rows path fs = Raise e /\
       BlockassetData.save_db rows path dbs = Raise e /\
       date_exn e) /\
  (datable rows ->
   forall (fs : csv_files) (dbs : databases),
   exists (fs' : csv_files) (dbs' : databases),
     BlockassetData.save_csv rows path fs = Ok fs' /\
     BlockassetData.save_db rows path dbs = Ok dbs' /\
     (forall p : string, p <> path -> fs' !! p = fs !! p) /\
     (forall p : string, p <> path -> dbs' !! p = dbs !! p) /\
     (forall t : string, t <> "prices" -> table path t dbs' = table path t dbs)).
Proof.
  split.
  - intros l1 l2 x -> Hok Hx fs dbs. exists (date_error x.1).
    rewrite prices_save_csv, prices_save_db.
    rewrite (mapM_db_row_first_undatable l1 l2 x Hok Hx).
    split; [unfold utc_date; by rewrite Hx|].
    split; [done|]. split; [done|]. apply date_error_kind.
  - intros Hok fs dbs. rewrite prices_save_csv, prices_save_db, (mapM_db_row rows Hok).
    cbn [mbind result_bind]. eexists _, _. split; [reflexivity|].
    split; [reflexivity|]. split; [|split].
    + intros p Hp. by apply lookup_insert_ne.
    + intros p Hp. by apply lookup_insert_ne.
    + intros t Ht. unfold table, connect. rewrite lookup_insert_eq.
      cbn [mbind option_bind]. rewrite lookup_insert_ne by done.
      destruct (dbs !! path) as [db|]; [done|]. apply lookup_empty.
Qed.

(** The dates [main] prints exist when every row can be dated. *)
Lemma date_range_datable (rows : list (Z * Q)) :
  datable rows -> date_range rows = Ok tt.
Proof.
  intros Hok. unfold date_range.
  destruct (head rows) as [first|] eqn:Hfirst; [|done].
  destruct (last rows) as [final|] eqn:Hfinal; [|done].
  assert (in_range first.1 = true) as H1.
  { apply (proj1 (Forall_forall _ _) Hok). by apply head_Some_elem_of. }
  assert (in_range final.1 = true) as H2.
  { apply (proj1 (Forall_forall _ _) Hok). by apply last_Some_elem_of. }
  unfold utc_date. by rewrite H1, H2.
Qed.

(** X14: the outcome of the price tool's [main].  It raises
    [RequestException] when the detail request fails, whatever the
    chart; [AttributeError] when the details hold something that is no
    object under "market_data" or, in it, under "current_price", again
    whatever the chart; [RequestException] when the details are read
    and the chart request fails; and what the conversion of the first
    undatable timestamp raises ([ValueError], [OSError] or
    [OverflowError]) when a sample cannot be dated, even though no sink
    was asked for.  Otherwise, on answers of the documented shape and
    with a CSV path and a database path that differ, it returns the
    rows of [fetch_price_history], and the date conversions of the
    sinks succeed on them: with a CSV path that file holds the header
    and the records of the rows, with a database path the table holds
    those records, and without an option the files, respectively the
    databases, are left as they were. *)
Theorem prices_main_outcome
    (a : BlockassetData.args) (net : BlockassetData.network)
    (fs : csv_files) (dbs : databases) :
  (coin_details net = Failed ->
   BlockassetData.main a net fs dbs = Raise RequestException) /\
  (forall info : details,
     coin_details net = Body info ->
     market_data info = NotObject \/ market_data info = Object NotObject ->
     BlockassetData.main a net fs dbs = Raise AttributeError) /\
  (forall info : details,
     coin_details net = Body info ->
     current_price info = Ok tt ->
     BlockassetData.market_chart net (arg_days a) = Failed ->
     BlockassetData.main a net fs dbs = Raise RequestException) /\
  (forall (info : details) (l1 l2 : list (Z * Q)) (x : Z * Q),
     coin_details net = Body info ->
     current_price info = Ok tt ->
     BlockassetData.market_chart net (arg_days a) = Body (Some (l1 ++ x :: l2)) ->
     datable l1 ->
     in_range x.1 = false ->
     exists e : exn,
       utc_date x.1 = Raise e /\
       BlockassetData.main a net fs dbs = Raise e /\
       date_exn e) /\
  (forall (info : details) (data : chart),
     coin_details net = Body info ->
     current_price info = Ok tt ->
     BlockassetData.market_chart net (arg_days a) = Body data ->
     datable (default [] data) ->
     (forall pc pd : string,
        given (BlockassetData.arg_csv a) = Some pc ->
        given (BlockassetData.arg_db a) = Some pd ->
        pc <> pd) ->
     exists (rows : list (Z * Q)) (fs' : csv_files) (dbs' : databases),
       fetch_price_history net (arg_days a) = Ok rows /\
       BlockassetData.main a net fs dbs = Ok (rows, fs', dbs') /\
       (forall p : string,
          given (BlockassetData.arg_csv a) = Some p ->
          fs' !! p = Some (BlockassetData.header :: (record <$> rows))) /\
       (given (BlockassetData.arg_csv a) = None -> fs' = fs) /\
       (forall p : string,
          given (BlockassetData.arg_db a) = Some p ->
          table p "prices" dbs' = Some (record <$> rows)) /\
       (given (BlockassetData.arg_db a) = None -> dbs' = dbs)).
Proof.
  split; [|split; [|split; [|split]]].
  - intros Hfail. unfold BlockassetData.main, fetch_coin_details. by rewrite Hfail.
  - intros info Hinfo Hshape. unfold BlockassetData.main, fetch_coin_details.
    rewrite Hinfo. cbn [mbind result_bind]. unfold current_price.
    by destruct Hshape as [->| ->].
  - intros info Hinfo Hprice Hfail. unfold BlockassetData.main, fetch_coin_details.
    rewrite Hinfo. cbn [mbind result_bind]. rewrite Hprice. cbn [mbind result_bind].
    unfold fetch_price_history. by rewrite Hfail.
  - intros info l1 l2 x Hinfo Hprice Hchart Hok Hx. exists (date_error x.1).
    split; [unfold utc_date; by rewrite Hx|]. split; [|apply date_error_kind].
    unfold BlockassetData.main, fetch_coin_details.
    rewrite Hinfo. cbn [mbind result_bind]. rewrite Hprice. cbn [mbind result_bind].
    by rewrite (fetch_price_history_undatable net (arg_days a) l1 l2 x Hchart Hok Hx).
  - intros info data Hinfo Hprice Hchart Hok _.
    destruct (fetch_price_history_rows net (arg_days a) data Hchart Hok)
      as (rows & Hrows & _).
    destruct (fetch_price_history_ok_series net (arg_days a) rows Hrows) as [Hdat _].
    unfold BlockassetData.main, fetch_coin_details. rewrite Hinfo.
    cbn [mbind result_bind]. rewrite Hprice. cbn [mbind result_bind].
    rewrite Hrows. cbn [mbind result_bind].
    rewrite (date_range_datable rows Hdat). cbn [mbind result_bind].
    exists rows.
    destruct (given (BlockassetData.arg_csv a)) as [pc|];
      destruct (given (BlockassetData.arg_db a)) as [pd|];
      rewrite ?prices_save_csv, ?prices_save_db, ?(mapM_db_row rows Hdat);
      cbn [mbind result_bind]; eexists _, _;
      (split; [reflexivity|]); (split; [reflexivity|]);
      (split; [intros p [= <-]; try apply lookup_insert_eq|]);
      (split; [try done|]);
      (split; [intros p [= <-]|try done]);
      unfold table; rewrite lookup_insert_eq; cbn [mbind option_bind];
      apply lookup_insert_eq.
Qed.

(** ** The calendar: date strings follow the days *)

Ltac dlia := Z.to_euclidean_division_equations; lia.

Lemma civil_stages (day : Z) :
  civil day =
  let z := (day + 719468)%Z in
  let era := (z `div` 146097)%Z in
  let doe := (z - era * 146097)%Z in
  let mp := mp_of (doy_of doe) in
  let m := if (mp <? 10)%Z then (mp + 3)%Z else (mp - 9)%Z in
  ((yoe_of doe + era * 400 + (if (m <=? 2)%Z then 1 else 0))%Z, m, dom_of (doy_of doe)).
Proof. reflexivity. Qed.

Lemma yoe_range (doe : Z) : (0 <= doe <= 146096)%Z -> (0 <= yoe_of doe <= 399)%Z.
Proof. intros H. unfold yoe_of. dlia. Qed.

Lemma doy_range (doe : Z) : (0 <= doe <= 146096)%Z -> (0 <= doy_of doe <= 365)%Z.
Proof. intros H. unfold doy_of, yoe_of. dlia. Qed.

Lemma yoe_mono (doe1 doe2 : Z) :
  (0 <= doe1 <= doe2)%Z -> (doe2 <= 146096)%Z -> (yoe_of doe1 <= yoe_of doe2)%Z.
Proof. intros H1 H2. unfold yoe_of. dlia. Qed.

Lemma mp_range (doy : Z) : (0 <= doy <= 365)%Z -> (0 <= mp_of doy <= 11)%Z.
Proof. intros H. unfold mp_of. dlia. Qed.

Lemma dom_range (doy : Z) : (1 <= dom_of doy <= 31)%Z.
Proof. unfold dom_of, mp_of. dlia. Qed.

Lemma mp_dom_mono (doy1 doy2 : Z) :
  (doy1 < doy2)%Z ->
  (mp_of doy1 < mp_of doy2 \/
   (mp_of doy1 = mp_of doy2 /\ dom_of doy1 < dom_of doy2))%Z.
Proof. intros H. unfold dom_of, mp_of. dlia. Qed.

(** A later day has a later calendar date. *)
Lemma civil_lt (day1 day2 : Z) : (day1 < day2)%Z -> date_lt (civil day1) (civil day2).
Proof.
  intros Hlt. rewrite !civil_stages. cbv zeta.
  set (z1 := (day1 + 719468)%Z). set (z2 := (day2 + 719468)%Z).
  assert (z1 < z2)%Z as Hz by (unfold z1, z2; lia). clearbody z1 z2. clear Hlt.
  set (e1 := (z1 `div` 146097)%Z). set (e2 := (z2 `div` 146097)%Z).
  set (o1 := (z1 - e1 * 146097)%Z). set (o2 := (z2 - e2 * 146097)%Z).
  assert (0 <= o1 <= 146096)%Z as Ho1 by (unfold o1, e1; dlia).
  assert (0 <= o2 <= 146096)%Z as Ho2 by (unfold o2, e2; dlia).
  assert (e1 < e2 \/ (e1 = e2 /\ o1 < o2))%Z as Heo by (unfold o1, o2, e1, e2; dlia).
  clearbody o1 o2 e1 e2. clear Hz.
  pose proof (yoe_range o1 Ho1) as Hy1. pose proof (yoe_range o2 Ho2) as Hy2.
  pose proof (mp_range _ (doy_range o1 Ho1)) as Hm1.
  pose proof (mp_range _ (doy_range o2 Ho2)) as Hm2.
  assert (e1 = e2 -> o1 < o2 ->
          yoe_of o1 < yoe_of o2 \/
          (yoe_of o1 = yoe_of o2 /\
           (mp_of (doy_of o1) < mp_of (doy_of o2) \/
            (mp_of (doy_of o1) = mp_of (doy_of o2) /\
             dom_of (doy_of o1) < dom_of (doy_of o2)))))%Z as Hsame.
  { intros _ Ho. pose proof (yoe_mono o1 o2 ltac:(lia) ltac:(lia)) as Hmono.
    destruct (Z.eq_dec (yoe_of o1) (yoe_of o2)) as [Heq|Hne]; [|lia].
    right. split; [done|]. apply mp_dom_mono. unfold doy_of. rewrite Heq. lia. }
  unfold date_lt.
  set (y1 := yoe_of o1) in *. set (y2 := yoe_of o2) in *.
  set (m1 := mp_of (doy_of o1)) in *. set (m2 := mp_of (doy_of o2)) in *.
  set (d1 := dom_of (doy_of o1)) in *. set (d2 := dom_of (doy_of o2)) in *.
  clearbody y1 y2 m1 m2 d1 d2.
  destruct (Z.ltb_spec m1 10), (Z.ltb_spec m2 10);
    repeat match goal with
           | |- context [(?a <=? ?b)%Z] => destruct (Z.leb_spec a b)
           end; lia.
Qed.

Lemma civil_month_day (day : Z) :
  let '(y, m, d) := civil day in (1 <= m <= 12 /\ 1 <= d <= 31)%Z.
Proof.
  rewrite civil_stages. cbv zeta.
  set (o := ((day + 719468) - (day + 719468) `div` 146097 * 146097)%Z).
  assert (0 <= o <= 146096)%Z as Ho by (unfold o; dlia).
  pose proof (mp_range _ (doy_range o Ho)) as Hm.
  pose proof (dom_range (doy_of o)) as Hd.
  destruct (Z.ltb_spec (mp_of (doy_of o)) 10); lia.
Qed.

Lemma nat_of_digit (n : Z) :
  nat_of_ascii (digit n) = (48 + Z.to_nat (n `mod` 10))%nat.
Proof.
  unfold digit. apply nat_ascii_embedding.
  assert (0 <= n `mod` 10 < 10)%Z by (apply Z.mod_pos_bound; lia). lia.
Qed.

Lemma lts_digit (a b : Z) (s1 s2 : string) :
  (a `mod` 10 < b `mod` 10)%Z \/
  ((a `mod` 10 = b `mod` 10)%Z /\ String_as_OT.lt s1 s2) ->
  String_as_OT.lt (String (digit a) s1) (String (digit b) s2).
Proof.
  intros [Hlt|[Heq Hs]].
  - apply String_as_OT.lts_head. rewrite !nat_of_digit.
    assert (0 <= a `mod` 10 < 10)%Z by (apply Z.mod_pos_bound; lia).
    assert (0 <= b `mod` 10 < 10)%Z by (apply Z.mod_pos_bound; lia). lia.
  - unfold digit. rewrite Heq. apply String_as_OT.lts_tail. exact Hs.
Qed.

(** Two digits in front of a text: the number decides, then the text. *)
Lemma lts_fmt2 (a b : Z) (s1 s2 : string) :
  (0 <= a <= 99)%Z -> (0 <= b <= 99)%Z ->
  (a < b)%Z \/ (a = b /\ String_as_OT.lt s1 s2) ->
  String_as_OT.lt (String.append (fmt2 a) s1) (String.append (fmt2 b) s2).
Proof.
  intros Ha Hb H. unfold fmt2. cbn [String.append].
  destruct H as [Hlt|[-> Hs]].
  - assert ((a `div` 10) `mod` 10 < (b `div` 10) `mod` 10 \/
            ((a `div` 10) `mod` 10 = (b `div` 10) `mod` 10 /\
             a `mod` 10 < b `mod` 10))%Z as [H1|[H1 H2]] by dlia.
    + apply lts_digit. by left.
    + apply lts_digit. right. split; [done|]. apply lts_digit. by left.
  - apply lts_digit. right. split; [done|]. apply lts_digit. by right.
Qed.

(** Four digits in front of a text. *)
Lemma lts_fmt4 (a b : Z) (s1 s2 : string) :
  (0 <= a <= 9999)%Z -> (0 <= b <= 9999)%Z ->
  (a < b)%Z \/ (a = b /\ String_as_OT.lt s1 s2) ->
  String_as_OT.lt (String.append (fmt4 a) s1) (String.append (fmt4 b) s2).
Proof.
  intros Ha Hb H. unfold fmt4.
  change (String.append (String ?c1 (String ?c2 ?s)) ?t)
    with (String c1 (String c2 (String.append s t))).
  destruct H as [Hlt|[-> Hs]].
  - assert ((a `div` 1000) `mod` 10 < (b `div` 1000) `mod` 10 \/
            ((a `div` 1000) `mod` 10 = (b `div` 1000) `mod` 10 /\
             ((a `div` 100) `mod` 10 < (b `div` 100) `mod` 10 \/
              ((a `div` 100) `mod` 10 = (b `div` 100) `mod` 10 /\
               a `mod` 100 < b `mod` 100))))%Z as H by dlia.
    assert (0 <= a `mod` 100 <= 99)%Z as Ha' by dlia.
    assert (0 <= b `mod` 100 <= 99)%Z as Hb' by dlia.
    assert (forall n s, String.append (fmt2 n) s = String.append (fmt2 (n `mod` 100)) s)
      as Hmod.
    { intros n s. unfold fmt2, digit. cbn [String.append]. do 4 f_equal; dlia. }
    rewrite (Hmod a), (Hmod b).
    destruct H as [H1|[H1 [H2|[H2 H3]]]].
    + apply lts_digit. by left.
    + apply lts_digit. right. split; [done|]. apply lts_digit. by left.
    + apply lts_digit. right. split; [done|]. apply lts_digit. right. split; [done|].
      apply lts_fmt2; [done|done|by left].
  - apply lts_digit. right. split; [done|]. apply lts_digit. right. split; [done|].
    assert (0 <= b `mod` 100 <= 99)%Z as Hb' by dlia.
    assert (forall n s, String.append (fmt2 n) s = String.append (fmt2 (n `mod` 100)) s)
      as Hmod.
    { intros n s. unfold fmt2, digit. cbn [String.append]. do 4 f_equal; dlia. }
    rewrite (Hmod b s1), (Hmod b s2). apply lts_fmt2; [done|done|by right].
Qed.

(** Within the years of [datetime], a later day has a later date
    string. *)
Lemma date_str_lt (ts1 ts2 : Z) :
  in_range ts1 = true -> in_range ts2 = true ->
  (day_number ts1 < day_number ts2)%Z ->
  str_lt (date_str ts1) (date_str ts2).
Proof.
  intros H1 H2 Hlt. apply str_lt_lts. unfold date_str, in_range in *.
  pose proof (civil_lt _ _ Hlt) as Hciv.
  pose proof (civil_month_day (day_number ts1)) as Hr1.
  pose proof (civil_month_day (day_number ts2)) as Hr2.
  destruct (civil (day_number ts1)) as [[y1 m1] d1].
  destruct (civil (day_number ts2)) as [[y2 m2] d2].
  apply andb_true_iff in H1 as [H1a H1b]. apply andb_true_iff in H2 as [H2a H2b].
  apply Z.leb_le in H1a, H1b, H2a, H2b. unfold date_lt in Hciv.
  apply lts_fmt4; [lia|lia|].
  destruct (Z.eq_dec y1 y2) as [Hy|Hy]; [|left; lia]. right. split; [done|].
  cbn [String.append]. apply String_as_OT.lts_tail.
  apply lts_fmt2; [lia|lia|].
  destruct (Z.eq_dec m1 m2) as [Hm|Hm]; [|left; lia]. right. split; [done|].
  cbn [String.append]. apply String_as_OT.lts_tail.
  change (String_as_OT.lt (String.append (fmt2 d1) "") (String.append (fmt2 d2) "")).
  apply lts_fmt2; [lia|lia|]. left. lia.
Qed.

Lemma str_lt_asymm (a b : string) : str_lt a b -> str_lt b a -> False.
Proof.
  rewrite !str_lt_lts. intros Hab Hba.
  by apply (String_as_OT.lt_not_eq a a (String_as_OT.lt_trans _ _ _ Hab Hba)).
Qed.

(** Within the years of [datetime], date strings compare as the days
    they name. *)
Lemma date_str_order (ts1 ts2 : Z) :
  in_range ts1 = true -> in_range ts2 = true ->
  (str_lt (date_str ts1) (date_str ts2) <-> (day_number ts1 < day_number ts2)%Z) /\
  (date_str ts1 = date_str ts2 <-> day_number ts1 = day_number ts2).
Proof.
  intros H1 H2.
  destruct (Z.lt_trichotomy (day_number ts1) (day_number ts2)) as [Hlt|[Heq|Hgt]].
  - pose proof (date_str_lt ts1 ts2 H1 H2 Hlt) as Hs. split; split; try done; try lia.
    intros Heq. rewrite Heq in Hs. by apply str_lt_irrefl in Hs.
  - assert (date_str ts1 = date_str ts2) as Hs by (unfold date_str; by rewrite Heq).
    split; split; try done; try lia.
    rewrite Hs. intros Hlt. by apply str_lt_irrefl in Hlt.
  - pose proof (date_str_lt ts2 ts1 H2 H1 Hgt) as Hs. split; split; try lia.
    + intros Hlt. destruct (str_lt_asymm _ _ Hlt Hs).
    + intros Heq. rewrite Heq in Hs. by apply str_lt_irrefl in Hs.
Qed.

Lemma day_number_lt (ts1 ts2 : Z) :
  (day_number ts1 < day_number ts2)%Z -> (ts1 < ts2)%Z.
Proof. unfold day_number. dlia. Qed.

Lemma sorted_by_day (rows : list (Z * Q)) :
  datable rows -> StronglySorted str_lt (dates rows) ->
  StronglySorted (fun r1 r2 => (day_number r1.1 < day_number r2.1)%Z) rows.
Proof.
  unfold dates. induction 1 as [|r rows Hr Hok IH]; intros Hsorted; [constructor|].
  rewrite fmap_cons in Hsorted. apply StronglySorted_inv in Hsorted as [Hs Hall].
  constructor; [by apply IH|].
  rewrite Forall_fmap in Hall. rewrite Forall_forall in *. intros r' Hr'.
  apply (date_str_order r.1 r'.1); [done|by apply Hok|by apply Hall].
Qed.

(** X15: the rows come out in the order of time, one for each UTC day.
    On a chart whose timestamps are at or after the epoch and can be
    dated, the rows [fetch_price_history] returns have strictly
    increasing days and so strictly increasing timestamps, and every
    sample has the row of its day.  (The model orders the date strings
    of all the years of [datetime] this way; the statement keeps to
    the timestamps from the epoch on, whose years have four digits
    without any padding.) *)
Theorem fetch_price_history_chronological
    (net : BlockassetData.network) (days : Z) (data : chart) :
  BlockassetData.market_chart net days = Body data ->
  datable (default [] data) ->
  Forall (fun s : Z * Q => (0 <= s.1)%Z) (default [] data) ->
  exists rows : list (Z * Q),
    fetch_price_history net days = Ok rows /\
    StronglySorted (fun r1 r2 => (day_number r1.1 < day_number r2.1)%Z) rows /\
    StronglySorted (fun r1 r2 => (r1.1 < r2.1)%Z) rows /\
    (forall s : Z * Q,
       s ∈ default [] data ->
       exists r : Z * Q, r ∈ rows /\ day_number r.1 = day_number s.1).
Proof.
  intros Hchart Hok _.
  destruct (fetch_price_history_rows net days data Hchart Hok) as (rows & Hrows & Hall).
  destruct (fetch_price_history_ok_series net days rows Hrows) as [Hdat Hsorted].
  destruct (rows_of_keys _ _ _ Hall) as [Hdates _].
  pose proof (sorted_by_day rows Hdat Hsorted) as Hday.
  exists rows. split; [done|]. split; [done|]. split.
  - clear -Hday. induction Hday as [|r rows _ IH Hr]; constructor; [done|].
    eapply Forall_impl; [exact Hr|]. intros r'. apply day_number_lt.
  - intros s Hs.
    assert (date_of s ∈ dates rows) as Hd.
    { rewrite Hdates. apply sorted_keys_dates. by apply list_elem_of_fmap_2. }
    apply list_elem_of_fmap in Hd as (r & Hdate & Hr). exists r. split; [done|].
    symmetry. apply (date_str_order s.1 r.1); [|by apply (datable_elem_of rows)|done].
    by apply (datable_elem_of (default [] data)).
Qed.

(** ** [compute_rsi]: degenerate periods and the mirrored series *)

(** X16: the periods that are no periods.  With a negative period
    [compute_rsi] returns 100 on every list, the empty one included;
    with the period zero it returns the undefined marker on the empty
    list and raises [ZeroDivisionError] on every other. *)
Theorem compute_rsi_degenerate_period (prices : list Q) (P : Z) :
  ((P < 0)%Z -> compute_rsi prices P = Ok (Some 100%Q)) /\
  (P = 0%Z -> prices = [] -> compute_rsi prices P = Ok None) /\
  (P = 0%Z -> prices <> [] -> compute_rsi prices P = Raise ZeroDivisionError).
Proof.
  split; [|split].
  - intros HP. rewrite compute_rsi_value by lia.
    assert (Qeq_bool (average_loss prices P) 0 = true) as ->; [|done].
    apply Qeq_bool_iff. unfold average_loss, loss_bucket.
    rewrite window_deltas_nil by lia. unfold Qdiv. cbn. ring.
  - intros -> ->. reflexivity.
  - intros -> Hne. apply compute_rsi_zero_period. destruct prices; [done|simpl; lia].
Qed.

(** Scaling every delta by [c < 0] scales the sums by [-c] and swaps
    them. *)
Lemma buckets_mirrored (c : Q) (ds' ds : list Q) :
  (c < 0)%Q ->
  Forall2 (fun x y => x == c * y)%Q ds' ds ->
  (sum (List.filter (fun d => Qgtb d 0) ds') ==
   - c * sum (Qabs <$> List.filter (fun d => Qle_bool d 0) ds))%Q /\
  (sum (Qabs <$> List.filter (fun d => Qle_bool d 0) ds') ==
   - c * sum (List.filter (fun d => Qgtb d 0) ds))%Q.
Proof.
  intros Hc. induction 1 as [|x y ds' ds Hxy _ [IHg IHl]].
  - split; unfold sum; simpl; ring.
  - cbn [List.filter].
    assert (forall z, Qgtb z 0 = negb (Qle_bool z 0)) as Hgt by done.
    destruct (Qlt_le_dec 0 y) as [Hy|Hy].
    + assert (x < 0)%Q as Hx.
      { rewrite Hxy. assert (0 < - c * y)%Q by (apply Qmult_lt_0_compat; lra). lra. }
      assert (Qle_bool x 0 = true) as Ex by (apply Qle_bool_iff; lra).
      assert (Qle_bool y 0 = false) as Ey.
      { apply not_true_iff_false. rewrite Qle_bool_iff. lra. }
      rewrite !Hgt, Ex, Ey. cbn [negb]. split; [done|].
      rewrite fmap_cons, !sum_cons, IHl, (Qabs_neg x) by lra. rewrite Hxy. ring.
    + assert (Qle_bool y 0 = true) as Ey by (by apply Qle_bool_iff).
      assert (0 <= x)%Q as Hx.
      { rewrite Hxy. assert (0 <= - c * - y)%Q by (apply Qmult_le_0_compat; lra). lra. }
      rewrite !Hgt, Ey. cbn [negb]. rewrite fmap_cons, sum_cons, (Qabs_neg y Hy).
      destruct (Qle_bool x 0) eqn:Ex; cbn [negb].
      * apply Qle_bool_iff in Ex. assert (x == 0)%Q as Hx0 by lra.
        rewrite fmap_cons, sum_cons, IHl, (Qabs_neg x Ex).
        split; [|rewrite Hx0; ring].
        rewrite IHg. rewrite Hxy in Hx0.
        assert (- c * (- y + sum (Qabs <$> List.filter (fun d => Qle_bool d 0) ds)) ==
                - (c * y) * -1 * -1 * -1 +
                - c * sum (Qabs <$> List.filter (fun d => Qle_bool d 0) ds))%Q as ->
          by ring.
        rewrite Hx0. ring.
      * split; [|done]. rewrite sum_cons, IHg, Hxy. ring.
Qed.

(** X17: the mirrored series has the mirrored RSI.  When the window
    holds a gain and a loss, multiplying every price by the same
    negative number (and shifting by any amount) turns the RSI [v]
    into [100 - v]. *)
Theorem compute_rsi_mirror (prices : list Q) (P : Z) (c k : Q) :
  (c < 0)%Q ->
  (P < Z.of_nat (length prices))%Z -> P <> 0%Z ->
  ~ (total_gain prices P == 0)%Q -> ~ (total_loss prices P == 0)%Q ->
  exists v v' : Q,
    compute_rsi prices P = Ok (Some v) /\
    compute_rsi ((fun p => c * p + k)%Q <$> prices) P = Ok (Some v') /\
    (v + v' == 100)%Q.
Proof.
  intros Hc Hlen HP HG HL.
  assert (P < Z.of_nat (length ((fun p => c * p + k)%Q <$> prices)))%Z as Hlen'
    by (by rewrite length_fmap).
  destruct (buckets_mirrored c _ _ Hc (window_deltas_affine c k prices P Hlen))
    as [Hg Hl].
  fold (gain_bucket ((fun p => c * p + k)%Q <$> prices) P) in Hg.
  fold (loss_bucket ((fun p => c * p + k)%Q <$> prices) P) in Hl.
  fold (gain_bucket prices P) in Hl. fold (loss_bucket prices P) in Hg.
  fold (total_gain ((fun p => c * p + k)%Q <$> prices) P) in Hg.
  fold (total_loss ((fun p => c * p + k)%Q <$> prices) P) in Hl.
  fold (total_gain prices P) in Hl. fold (total_loss prices P) in Hg.
  pose proof (total_gain_nonneg prices P) as HG0.
  pose proof (total_loss_nonneg prices P) as HL0.
  assert (0 < - c * total_gain prices P)%Q as Hcg by (apply Qmult_lt_0_compat; lra).
  assert (0 < - c * total_loss prices P)%Q as Hcl by (apply Qmult_lt_0_compat; lra).
  assert (~ (total_loss ((fun p => c * p + k)%Q <$> prices) P == 0)%Q) as HL'.
  { rewrite Hl. lra. }
  destruct (compute_rsi_total prices P HP) as [r Hr].
  rewrite compute_rsi_value in Hr by done.
  rewrite !compute_rsi_value by done.
  assert (Qeq_bool (average_loss prices P) 0 = false) as ->.
  { apply not_true_iff_false. by rewrite Qeq_bool_iff, average_loss_zero_iff. }
  assert (Qeq_bool (average_loss ((fun p => c * p + k)%Q <$> prices) P) 0 = false) as ->.
  { apply not_true_iff_false. by rewrite Qeq_bool_iff, average_loss_zero_iff. }
  eexists _, _. split; [reflexivity|]. split; [reflexivity|].
  rewrite (rsi_formula_closed _ P HP HL'), (rsi_formula_closed _ P HP HL), Hg, Hl.
  set (G := total_gain prices P) in *. set (L := total_loss prices P) in *.
  assert (~ (- c * L + - c * G == 0)%Q) as H1 by lra.
  assert (~ (G + L == 0)%Q) as H2 by lra.
  assert (~ (c == 0)%Q) as H3 by lra.
  assert (100 * (- c * L) / (- c * L + - c * G) == 100 * L / (G + L))%Q as ->.
  { assert (- c * L + - c * G == - c * (G + L))%Q as -> by ring.
    field. split; [done|lra]. }
  field. done.
Qed.

(** * The further properties at sample inputs *)

(** The RSI of [wilder] from the sums of its gains and losses. *)
Lemma compute_rsi_closed_form_witness :
  (14 < Z.of_nat (length wilder))%Z /\ 14%Z <> 0%Z /\
  ~ (total_loss wilder 14 == 0)%Q /\
  exists v : Q,
    compute_rsi wilder 14 = Ok (Some v) /\
    (v == 100 * total_gain wilder 14 / (total_gain wilder 14 + total_loss wilder 14))%Q.
Proof.
  assert (14 < Z.of_nat (length wilder))%Z as Hlen by reflexivity.
  assert (14%Z <> 0%Z) as HP by discriminate.
  assert (~ (total_loss wilder 14 == 0)%Q) as HL by (vm_compute; discriminate).
  split; [exact Hlen|]. split; [exact HP|]. split; [exact HL|].
  exact (compute_rsi_closed_form wilder 14 Hlen HP HL).
Defined.

(** [rising] never falls: its RSI is 100. *)
Lemma compute_rsi_extremes_witness :
  (14 < Z.of_nat (length rising))%Z /\ 14%Z <> 0%Z /\
  exists v : Q,
    compute_rsi rising 14 = Ok (Some v) /\
    ((v == 100)%Q <-> Forall (fun d => 0 <= d)%Q (window_deltas rising 14)) /\
    ((v == 0)%Q <->
     Forall (fun d => d <= 0)%Q (window_deltas rising 14) /\
     Exists (fun d => d < 0)%Q (window_deltas rising 14)).
Proof.
  assert (14 < Z.of_nat (length rising))%Z as Hlen by reflexivity.
  assert (14%Z <> 0%Z) as HP by discriminate.
  split; [exact Hlen|]. split; [exact HP|].
  exact (compute_rsi_extremes rising 14 Hlen HP).
Defined.

(** [wilder] in another unit and shifted. *)
Lemma compute_rsi_affine_invariant_witness :
  (0 < 2)%Q /\
  same_rsi (compute_rsi ((fun p => 2 * p + 5)%Q <$> wilder) 14) (compute_rsi wilder 14).
Proof.
  assert (0 < 2)%Q as Hc by reflexivity.
  split; [exact Hc|]. exact (compute_rsi_affine_invariant wilder 14 2 5 Hc).
Defined.

(** The rows of the first two coins of [sample_net_failing]. *)
Lemma stored_rsi_consistent_witness :
  exists rows : list row,
    main_loop sample_net_failing 0
      [Coin (Some "a") (Some "A") (Some "a"); Coin (Some "b") (Some "B") (Some "b")]
    = Ok rows /\
    Forall consistent rows.
Proof.
  destruct (stored_rsi_consistent sample_net_failing 0
              [Coin (Some "a") (Some "A") (Some "a");
               Coin (Some "b") (Some "B") (Some "b")]) as (rows & Hrows & Hall & _).
  exists rows. split; [exact Hrows|exact Hall].
Defined.

(** The second chart request of [sample_net_failing] fails. *)
Lemma analyze_coin_by_chart_size_witness :
  (chart_size (CryptoTrending.market_chart sample_net_failing 1 (str (Some "b")) 15)
   <= 14)%nat /\
  analyze_coin sample_net_failing 1 (Coin (Some "b") (Some "B") (Some "b")) =
  Ok (Some "b", NaN, Neutral).
Proof.
  assert (chart_size (CryptoTrending.market_chart sample_net_failing 1 (str (Some "b")) 15)
          <= 14)%nat as Hn by (vm_compute; lia).
  split; [exact Hn|].
  exact (proj1 (analyze_coin_by_chart_size sample_net_failing 1
                  (Coin (Some "b") (Some "B") (Some "b"))) Hn).
Defined.

(** Failures after the seventh chart request are never seen. *)
Lemma main_reads_seven_charts_witness :
  CryptoTrending.main sample_args sample_net_late ∅ ∅ =
  CryptoTrending.main sample_args sample_net ∅ ∅.
Proof.
  apply main_reads_seven_charts.
  - reflexivity.
  - intros k id Hk. unfold sample_net_late. cbn [CryptoTrending.market_chart].
    destruct (Nat.ltb_spec k 7) as [_|Hge]; [reflexivity|lia].
Defined.

(** The run on [sample_net] with both sinks. *)
Lemma main_outcome_written_witness :
  trending_search sample_net = Body (Some sample_entries) /\
  (forall pc pd : string,
     given (CryptoTrending.arg_csv sample_args) = Some pc ->
     given (CryptoTrending.arg_db sample_args) = Some pd ->
     pc <> pd) /\
  exists (rows : list row) (fs' : csv_files) (dbs' : databases),
    CryptoTrending.main sample_args sample_net ∅ ∅ = Ok (rows, fs', dbs') /\
    length rows = 7%nat /\
    fs' !! "out.csv" = Some (CryptoTrending.header :: (cells <$> rows)) /\
    table "out.db" "trending" dbs' = Some (cells <$> rows).
Proof.
  assert (trending_search sample_net = Body (Some sample_entries)) as Hbody
    by reflexivity.
  assert (forall pc pd : string,
            given (CryptoTrending.arg_csv sample_args) = Some pc ->
            given (CryptoTrending.arg_db sample_args) = Some pd -> pc <> pd) as Hpaths
    by (intros pc pd [= <-] [= <-]; discriminate).
  split; [exact Hbody|]. split; [exact Hpaths|].
  destruct (proj2 (main_outcome_written sample_args sample_net ∅ ∅) _ Hbody Hpaths)
    as (rows & fs' & dbs' & Hmain & Hlen & Hcsv & _ & Hdb & _).
  exists rows, fs', dbs'. split; [exact Hmain|]. split; [exact Hlen|].
  split; [apply Hcsv; reflexivity|apply Hdb; reflexivity].
Defined.

(** Another file survives the writing of "out.csv". *)
Lemma trending_sinks_frame_witness :
  "other.csv" <> "out.csv" /\
  CryptoTrending.save_csv [] "out.csv" (<["other.csv" := [[VStr "kept"]]]> ∅)
    !! "other.csv" = Some [[VStr "kept"]].
Proof.
  assert ("other.csv" <> "out.csv") as Hp by discriminate.
  split; [exact Hp|].
  rewrite (proj1 (trending_sinks_frame [] "out.csv") _ "other.csv" Hp).
  apply lookup_insert_eq.
Defined.

(** The rows of [sample_chart] are two of its four samples. *)
Lemma fetch_price_history_selects_witness :
  BlockassetData.market_chart sample_price_net 365 = Body (Some sample_chart) /\
  datable sample_chart /\
  exists rows : list (Z * Q),
    fetch_price_history sample_price_net 365 = Ok rows /\
    (forall r : Z * Q, r ∈ rows -> r ∈ sample_chart) /\
    (length rows <= 4)%nat.
Proof.
  assert (BlockassetData.market_chart sample_price_net 365 = Body (Some sample_chart))
    as Hchart by reflexivity.
  assert (datable (default [] (Some sample_chart))) as Hok by (repeat constructor).
  split; [exact Hchart|]. split; [exact Hok|].
  destruct (fetch_price_history_selects sample_price_net 365%Z (Some sample_chart)
              Hchart Hok) as (rows & Hrows & Hsub & Hlen & _).
  exists rows. split; [exact Hrows|]. split; [exact Hsub|exact Hlen].
Defined.

(** The rows of [sample_chart], served again, come back unchanged. *)
Lemma fetch_price_history_idempotent_witness :
  BlockassetData.market_chart sample_series_net 30 = Body (Some sample_rows) /\
  fetch_price_history sample_price_net 365 = Ok sample_rows /\
  fetch_price_history sample_series_net 30 = Ok sample_rows.
Proof.
  assert (BlockassetData.market_chart sample_series_net 30 = Body (Some sample_rows))
    as Hchart by reflexivity.
  assert (fetch_price_history sample_price_net 365 = Ok sample_rows) as Hrows
    by (vm_compute; reflexivity).
  split; [exact Hchart|]. split; [exact Hrows|].
  exact (proj2 (fetch_price_history_idempotent sample_series_net 30%Z sample_rows Hchart)
           sample_price_net 365%Z Hrows).
Defined.

(** In [sample_chart_swapped] the first sample is overwritten by the
    third, and it is not of the date of the second. *)
Lemma fetch_price_history_last_only_witness :
  fetch_price_history (chart_net sample_chart_dropped) 365 =
  fetch_price_history (chart_net sample_chart_swapped) 365 /\
  fetch_price_history (chart_net sample_chart) 365 =
  fetch_price_history (chart_net sample_chart_swapped) 365.
Proof.
  assert (BlockassetData.market_chart (chart_net sample_chart_swapped) 365 =
          Body (Some ([] ++ (1700000000000%Z, 9%Q) :: (1700100000000%Z, 3%Q) ::
                            [(1700000001000%Z, 5%Q); (1700000002000%Z, 7%Q)])))
    as Hchart by reflexivity.
  assert (datable ([] ++ (1700000000000%Z, 9%Q) :: (1700100000000%Z, 3%Q) ::
                         [(1700000001000%Z, 5%Q); (1700000002000%Z, 7%Q)]))
    as Hok by (repeat constructor).
  destruct (fetch_price_history_last_only
              (chart_net sample_chart_swapped) (chart_net sample_chart_dropped)
              365%Z 365%Z
              _ _ _ _ Hchart Hok) as [Hdrop _].
  destruct (fetch_price_history_last_only
              (chart_net sample_chart_swapped) (chart_net sample_chart) 365%Z 365%Z
              _ _ _ _ Hchart Hok) as [_ Hswap].
  split.
  - apply Hdrop; [|reflexivity].
    apply list_elem_of_fmap. exists (1700000001000%Z, 5%Q).
    split; [vm_compute; reflexivity|]. right. left.
  - apply Hswap; [|reflexivity]. vm_compute. discriminate.
Defined.

(** A timestamp beyond the year 9999 aborts the fetch. *)
Lemma fetch_price_history_failures_witness :
  datable [(1700000000000%Z, 9%Q)] /\
  in_range 1000000000000000000 = false /\
  exists e : exn,
    utc_date 1000000000000000000 = Raise e /\
    fetch_price_history (chart_net undatable_chart) 365 = Raise e /\
    date_exn e.
Proof.
  assert (datable [(1700000000000%Z, 9%Q)]) as Hok by (repeat constructor).
  assert (in_range 1000000000000000000 = false) as Hx by (vm_compute; reflexivity).
  split; [exact Hok|]. split; [exact Hx|].
  exact (proj2 (fetch_price_history_failures (chart_net undatable_chart) 365%Z)
           [(1700000000000%Z, 9%Q)] [] (1000000000000000000%Z, 5%Q) eq_refl Hok Hx).
Defined.

(** The sinks on [undatable_chart] and on [sample_rows]. *)
Lemma prices_sinks_frame_witness :
  datable [(1700000000000%Z, 9%Q)] /\
  in_range 1000000000000000000 = false /\
  (exists e : exn,
     utc_date 1000000000000000000 = Raise e /\
     BlockassetData.save_csv undatable_chart "p.csv" ∅ = Raise e /\
     BlockassetData.save_db undatable_chart "p.csv" ∅ = Raise e /\
     date_exn e) /\
  datable sample_rows /\
  exists dbs' : databases,
    BlockassetData.save_db sample_rows "p.db" ∅ = Ok dbs' /\
    table "p.db" "other" dbs' = table "p.db" "other" ∅.
Proof.
  assert (datable [(1700000000000%Z, 9%Q)]) as Hpre by (repeat constructor).
  assert (in_range 1000000000000000000 = false) as Hx by (vm_compute; reflexivity).
  assert (datable sample_rows) as Hok by (repeat constructor).
  split; [exact Hpre|]. split; [exact Hx|].
  split.
  { exact (proj1 (prices_sinks_frame undatable_chart "p.csv")
             [(1700000000000%Z, 9%Q)] [] (1000000000000000000%Z, 5%Q)
             eq_refl Hpre Hx ∅ ∅). }
  split; [exact Hok|].
  destruct (proj2 (prices_sinks_frame sample_rows "p.db") Hok ∅ ∅)
    as (fs' & dbs' & _ & Hdb & _ & _ & Htable).
  exists dbs'. split; [exact Hdb|]. apply Htable. discriminate.
Defined.

(** The run of the price tool on [sample_chart] with both sinks. *)
Lemma prices_main_outcome_witness :
  coin_details sample_price_net = Body sample_details /\
  current_price sample_details = Ok tt /\
  BlockassetData.market_chart sample_price_net 365 = Body (Some sample_chart) /\
  datable sample_chart /\
  (forall pc pd : string,
     given (BlockassetData.arg_csv sample_price_args) = Some pc ->
     given (BlockassetData.arg_db sample_price_args) = Some pd ->
     pc <> pd) /\
  exists (rows : list (Z * Q)) (fs' : csv_files) (dbs' : databases),
    BlockassetData.main sample_price_args sample_price_net ∅ ∅ = Ok (rows, fs', dbs') /\
    fs' !! "p.csv" = Some (BlockassetData.header :: (record <$> rows)) /\
    table "p.db" "prices" dbs' = Some (record <$> rows).
Proof.
  assert (coin_details sample_price_net = Body sample_details) as Hinfo by reflexivity.
  assert (current_price sample_details = Ok tt) as Hprice by reflexivity.
  assert (BlockassetData.market_chart sample_price_net
            (arg_days sample_price_args) = Body (Some sample_chart))
    as Hchart by reflexivity.
  assert (datable (default [] (Some sample_chart))) as Hok by (repeat constructor).
  assert (forall pc pd : string,
            given (BlockassetData.arg_csv sample_price_args) = Some pc ->
            given (BlockassetData.arg_db sample_price_args) = Some pd ->
            pc <> pd) as Hpaths
    by (intros pc pd [= <-] [= <-]; discriminate).
  split; [exact Hinfo|]. split; [exact Hprice|]. split; [exact Hchart|].
  split; [exact Hok|]. split; [exact Hpaths|].
  destruct (proj2 (proj2 (proj2 (proj2 (prices_main_outcome sample_price_args
                                          sample_price_net ∅ ∅))))
              sample_details (Some sample_chart) Hinfo Hprice Hchart Hok Hpaths)
    as (rows & fs' & dbs' & _ & Hmain & Hcsv & _ & Hdb & _).
  exists rows, fs', dbs'. split; [exact Hmain|].
  split; [apply Hcsv; reflexivity|apply Hdb; reflexivity].
Defined.

(** The rows of [sample_chart] in the order of time. *)
Lemma fetch_price_history_chronological_witness :
  BlockassetData.market_chart sample_price_net 365 = Body (Some sample_chart) /\
  datable sample_chart /\
  Forall (fun s : Z * Q => (0 <= s.1)%Z) sample_chart /\
  exists rows : list (Z * Q),
    fetch_price_history sample_price_net 365 = Ok rows /\
    StronglySorted (fun r1 r2 => (r1.1 < r2.1)%Z) rows.
Proof.
  assert (BlockassetData.market_chart sample_price_net 365 = Body (Some sample_chart))
    as Hchart by reflexivity.
  assert (datable (default [] (Some sample_chart))) as Hok by (repeat constructor).
  assert (Forall (fun s : Z * Q => (0 <= s.1)%Z) (default [] (Some sample_chart)))
    as Hpos by (repeat constructor; vm_compute; discriminate).
  split; [exact Hchart|]. split; [exact Hok|]. split; [exact Hpos|].
  destruct (fetch_price_history_chronological sample_price_net 365%Z (Some sample_chart)
              Hchart Hok Hpos) as (rows & Hrows & _ & Hts & _).
  exists rows. split; [exact Hrows|exact Hts].
Defined.

(** A negative period on the empty list. *)
Lemma compute_rsi_degenerate_period_witness :
  (-3 < 0)%Z /\ compute_rsi [] (-3) = Ok (Some 100%Q).
Proof.
  assert (-3 < 0)%Z as HP by reflexivity.
  split; [exact HP|]. exact (proj1 (compute_rsi_degenerate_period [] (-3)%Z) HP).
Defined.

(** [wilder] turned upside down. *)
Lemma compute_rsi_mirror_witness :
  (-1 < 0)%Q /\ (14 < Z.of_nat (length wilder))%Z /\ 14%Z <> 0%Z /\
  ~ (total_gain wilder 14 == 0)%Q /\ ~ (total_loss wilder 14 == 0)%Q /\
  exists v v' : Q,
    compute_rsi wilder 14 = Ok (Some v) /\
    compute_rsi ((fun p => -1 * p + 100)%Q <$> wilder) 14 = Ok (Some v') /\
    (v + v' == 100)%Q.
Proof.
  assert (-1 < 0)%Q as Hc by reflexivity.
  assert (14 < Z.of_nat (length wilder))%Z as Hlen by reflexivity.
  assert (14%Z <> 0%Z) as HP by discriminate.
  assert (~ (total_gain wilder 14 == 0)%Q) as HG by (vm_compute; discriminate).
  assert (~ (total_loss wilder 14 == 0)%Q) as HL by (vm_compute; discriminate).
  split; [exact Hc|]. split; [exact Hlen|]. split; [exact HP|].
  split; [exact HG|]. split; [exact HL|].
  exact (compute_rsi_mirror wilder 14%Z (-1)%Q 100%Q Hc Hlen HP HG HL).
Defined.
